(** * scripts/ddg_search.py: the DuckDuckGo search script

    A shallow embedding of the 47-line script and the properties its
    specification states about it.

    Conventions of the embedding.
    - Python text ([str]) is a [string] holding its UTF-8 encoding: the
      bytes [sys.argv] is decoded from and [print] writes to standard
      output.
    - Python values are the values of [pyval]: the JSON-like ones and
      the objects [json.dumps] has no encoding for.  A [dict] keeps its
      insertion order, which [json.dumps] follows.
    - The interpreter is CPython 3.11: conversions between integers and
      decimal numerals stop at 4300 digits, and the decimal digits and the
      blanks [int] accepts are those of Unicode 14.
    - Standard output is a setting of the process: [main_on] runs the
      script on any, [main] on one that takes every text (UTF-8, open).
    - An exception is what a handler can tell about it: whether it is an
      instance of [Exception] (what [except Exception] tests) and its
      [str(e)]; and how the interpreter ends when nothing handles it.
    - The search library is an explicit value of type [DDGS]: what
      [DDGS()], [ddgs.text(query, max_results=n)] and the release of the
      session do.  A session is assumed never to swallow an exception
      passing through its [__exit__] (the library's returns [None]). *)

From Stdlib Require Import String Ascii List ZArith Lia Bool DecimalString.
From Stdlib Require Import DecimalPos.
Import ListNotations.

Local Open Scope string_scope.
Local Open Scope list_scope.
Local Open Scope Z_scope.

(** ** Text *)

Module Text.

(** Characters that cannot be written inside a literal. *)
Definition dquote : ascii := "034"%char.
Definition backslash : ascii := "092"%char.
Definition newline : ascii := "010"%char.

Definition chr (c : ascii) : string := String c EmptyString.

(** A text between double quotes. *)
Definition quoted (s : string) : string :=
  (chr dquote ++ s ++ chr dquote)%string.

Definition code (c : ascii) : N := N_of_ascii c.

Definition hex_digit (n : N) : ascii :=
  if (n <? 10)%N then ascii_of_N (48 + n) else ascii_of_N (87 + n).

(** ['{0:02x}'.format(n)] and ['{0:04x}'.format(n)], for [n] that fits. *)
Definition hex2 (n : N) : string :=
  String (hex_digit (N.land (N.shiftr n 4) 15))
    (String (hex_digit (N.land n 15)) EmptyString).

Definition hex4 (n : N) : string :=
  (hex2 (N.land (N.shiftr n 8) 255) ++ hex2 (N.land n 255))%string.

(** [str(n)] for an integer. *)
Definition str_of_int (z : Z) : string := NilZero.string_of_int (Z.to_int z).

(** The code points of a text, from its UTF-8 encoding.  A byte that does
    not start a well-formed sequence (no text has one) is passed on. *)
Fixpoint utf8_decode (bs : list N) : list N :=
  match bs with
  | [] => []
  | b0 :: t0 =>
    if (b0 <? 192)%N then b0 :: utf8_decode t0
    else
      match t0 with
      | [] => [b0]
      | b1 :: t1 =>
        if (b0 <? 224)%N then
          N.lor (N.shiftl (N.land b0 31) 6) (N.land b1 63) :: utf8_decode t1
        else
          match t1 with
          | [] => [b0; b1]
          | b2 :: t2 =>
            if (b0 <? 240)%N then
              N.lor (N.shiftl (N.land b0 15) 12)
                (N.lor (N.shiftl (N.land b1 63) 6) (N.land b2 63))
              :: utf8_decode t2
            else
              match t2 with
              | [] => [b0; b1; b2]
              | b3 :: t3 =>
                N.lor (N.shiftl (N.land b0 7) 18)
                  (N.lor (N.shiftl (N.land b1 63) 12)
                     (N.lor (N.shiftl (N.land b2 63) 6) (N.land b3 63)))
                :: utf8_decode t3
              end
          end
      end
  end.

Definition code_points (s : string) : list N :=
  utf8_decode (map code (list_ascii_of_string s)).

End Text.

(** ** Exceptions and results *)

Record exn : Type := mkException {
  exn_type : string;          (* the name of the exception's class *)
  exn_is_Exception : bool;    (* isinstance(e, Exception) *)
  exn_str : string;           (* str(e) *)
  exn_exit : option Z         (* how the interpreter ends when an exception
                                 that is no [Exception] is left unhandled:
                                 the code of a [SystemExit], 1 after the
                                 traceback of a [GeneratorExit], no status
                                 but the interrupt signal for a
                                 [KeyboardInterrupt] *)
}.

(** An exception after which the interpreter, when nothing handles it,
    prints the traceback and ends with status 1. *)
Definition mkExn (type : string) (is_Exception : bool) (str : string) : exn :=
  mkException type is_Exception str (Some 1).

Definition ValueError (msg : string) : exn := mkExn "ValueError" true msg.
Definition TypeError (msg : string) : exn := mkExn "TypeError" true msg.
Definition AttributeError (msg : string) : exn := mkExn "AttributeError" true msg.
Definition IndexError (msg : string) : exn := mkExn "IndexError" true msg.

(** The outcome of evaluating an expression or running a block: a value, or
    an exception on its way up the stack. *)
Inductive result (A : Type) : Type :=
| Ok (a : A)
| Raise (e : exn).

Arguments Ok {A} a.
Arguments Raise {A} e.

Definition bind {A B : Type} (c : result A) (k : A -> result B) : result B :=
  match c with
  | Ok a => k a
  | Raise e => Raise e
  end.

Notation "x <- c ;; k" := (bind c (fun x => k))
  (at level 61, c at next level, right associativity).

(** ** Python values

    The values a record of the library can hold and the script can build:
    the JSON-like ones, the keys of a [dict] being texts, and the objects
    of other types.  Floating-point numbers are not among them. *)

Unset Elimination Schemes.

Inductive pyval : Type :=
| PNone
| PBool (b : bool)
| PInt (z : Z)
| PStr (s : string)
| PList (l : list pyval)
| PDict (d : list (string * pyval))
| POther (type : string).   (* an object of another type, without [get] and
                               without a JSON encoding: [bytes], [set] *)

Set Elimination Schemes.

Definition dict : Type := list (string * pyval).

(** [type(v).__name__] *)
Definition type_name (v : pyval) : string :=
  match v with
  | PNone => "NoneType"
  | PBool _ => "bool"
  | PInt _ => "int"
  | PStr _ => "str"
  | PList _ => "list"
  | PDict _ => "dict"
  | POther type => type
  end.

Fixpoint dict_lookup (key : string) (d : dict) : option pyval :=
  match d with
  | [] => None
  | (k, v) :: d' => if String.eqb k key then Some v else dict_lookup key d'
  end.

(** [key in d] *)
Definition has_key (key : string) (d : dict) : bool :=
  match dict_lookup key d with Some _ => true | None => false end.

(** [list(d.keys())] *)
Definition keys (d : dict) : list string := map fst d.

(** [r.get(key, default)]: the stored value when [r] is a mapping holding
    [key], [default] when it holds none; an object that is no mapping has
    no [get] attribute. *)
Definition py_get (r : pyval) (key : string) (default : pyval) : result pyval :=
  match r with
  | PDict d =>
    Ok (match dict_lookup key d with Some v => v | None => default end)
  | _ =>
    Raise (AttributeError
             ("'" ++ type_name r ++ "' object has no attribute 'get'"))
  end.

(** [l[i]] on a list of texts. *)
Definition py_index (l : list string) (i : nat) : result string :=
  match nth_error l i with
  | Some s => Ok s
  | None => Raise (IndexError "list index out of range")
  end.

(** ** Builtins and the json module *)

Module Builtins.
Import Text.

(** *** [json.dumps] *)

(** The escapes both encoders share ([ESCAPE_DCT] of json.encoder): the
    quote, the backslash and the control characters. *)
Definition escape_dct (n : N) : option string :=
  if (n =? 34)%N then Some (String backslash (chr dquote))
  else if (n =? 92)%N then Some (String backslash (chr backslash))
  else if (n =? 10)%N then Some (String backslash "n")
  else if (n =? 13)%N then Some (String backslash "r")
  else if (n =? 9)%N then Some (String backslash "t")
  else if (n =? 8)%N then Some (String backslash "b")
  else if (n =? 12)%N then Some (String backslash "f")
  else if (n <? 32)%N then Some (String backslash ("u" ++ hex4 n))
  else None.

(** [ensure_ascii=False]: only the characters of [escape_dct] are
    replaced, all others are emitted as they are. *)
Definition escape_byte (c : ascii) : string :=
  match escape_dct (code c) with
  | Some e => e
  | None => chr c
  end.

(** [ensure_ascii=True]: every character outside [' '..'~'] is replaced,
    one above the basic plane by a surrogate pair. *)
Definition escape_code_point (n : N) : string :=
  match escape_dct n with
  | Some e => e
  | None =>
    if ((32 <=? n) && (n <=? 126))%N then chr (ascii_of_N n)
    else if (n <? 65536)%N then String backslash ("u" ++ hex4 n)
    else
      let m := (n - 65536)%N in
      let s1 := N.lor 55296 (N.land (N.shiftr m 10) 1023) in
      let s2 := N.lor 56320 (N.land m 1023) in
      (String backslash ("u" ++ hex4 s1) ++ String backslash ("u" ++ hex4 s2))%string
  end.

Definition json_string (ensure_ascii : bool) (s : string) : string :=
  quoted
    (if ensure_ascii
     then String.concat EmptyString (map escape_code_point (code_points s))
     else String.concat EmptyString (map escape_byte (list_ascii_of_string s))).

(** The cap on the digits of a numeral the interpreter converts
    ([sys.get_int_max_str_digits()]). *)
Definition int_max_str_digits : nat := 4300.

Definition str_digits_error : string :=
  "Exceeds the limit (4300 digits) for integer string conversion".

Definition set_digits_hint : string :=
  "; use sys.set_int_max_str_digits() to increase the limit".

(** The digits of [str(z)], the sign not counted. *)
Definition numeral_digits (z : Z) : nat := String.length (str_of_int (Z.abs z)).

(** [repr(z)] of an integer, as [json.dumps] calls it. *)
Definition int_repr (z : Z) : result string :=
  if (int_max_str_digits <? numeral_digits z)%nat
  then Raise (ValueError (str_digits_error ++ set_digits_hint))
  else Ok (str_of_int z).

(** [json.dumps(v, ensure_ascii=...)] with the default separators
    [', '] and [': '].  The first value without an encoding, in the order
    of writing, ends the call. *)
Fixpoint json_dumps (ensure_ascii : bool) (v : pyval) : result string :=
  match v with
  | PNone => Ok "null"
  | PBool true => Ok "true"
  | PBool false => Ok "false"
  | PInt z => int_repr z
  | PStr s => Ok (json_string ensure_ascii s)
  | PList l =>
    items <- (fix items (l : list pyval) : result string :=
                match l with
                | [] => Ok EmptyString
                | [x] => json_dumps ensure_ascii x
                | x :: l' =>
                  first <- json_dumps ensure_ascii x ;;
                  others <- items l' ;;
                  Ok (first ++ ", " ++ others)%string
                end) l ;;
    Ok ("[" ++ items ++ "]")%string
  | PDict d =>
    members <- (fix members (d : list (string * pyval)) : result string :=
                  match d with
                  | [] => Ok EmptyString
                  | [(k, x)] =>
                    value <- json_dumps ensure_ascii x ;;
                    Ok (json_string ensure_ascii k ++ ": " ++ value)%string
                  | (k, x) :: d' =>
                    value <- json_dumps ensure_ascii x ;;
                    others <- members d' ;;
                    Ok (json_string ensure_ascii k ++ ": " ++ value
                        ++ ", " ++ others)%string
                  end) d ;;
    Ok ("{" ++ members ++ "}")%string
  | POther type =>
    Raise (TypeError ("Object of type " ++ type ++ " is not JSON serializable"))
  end.

(** *** [repr] of a text, as [int] quotes its argument in its error

    Exact on ASCII text; a byte of a longer UTF-8 sequence is emitted as
    it is, which is what [repr] does with a printable character. *)
Definition contains (c : ascii) (s : string) : bool :=
  existsb (Ascii.eqb c) (list_ascii_of_string s).

Definition repr_quote (s : string) : ascii :=
  if contains "'"%char s && negb (contains dquote s) then dquote else "'"%char.

Definition repr_char (quote c : ascii) : string :=
  let n := code c in
  if Ascii.eqb c quote || Ascii.eqb c backslash then String backslash (chr c)
  else if (n =? 9)%N then String backslash "t"
  else if (n =? 10)%N then String backslash "n"
  else if (n =? 13)%N then String backslash "r"
  else if ((n <? 32) || (n =? 127))%N then String backslash ("x" ++ hex2 n)
  else chr c.

Definition py_repr (s : string) : string :=
  let q := repr_quote s in
  (chr q
   ++ String.concat EmptyString (map (repr_char q) (list_ascii_of_string s))
   ++ chr q)%string.

(** The first [n] characters of a text: a byte that continues a UTF-8
    sequence stays with the byte that starts it. *)
Fixpoint take_characters (n : nat) (s : string) : string :=
  match s with
  | EmptyString => EmptyString
  | String c s' =>
    if ((128 <=? code c) && (code c <? 192))%N
    then String c (take_characters n s')
    else
      match n with
      | O => EmptyString
      | S n' => String c (take_characters n' s')
      end
  end.

(** ['%.200R' % s] *)
Definition repr_200 (s : string) : string := take_characters 200 (py_repr s).

(** *** [int(s)] on a text, base 10

    Optional white space, an optional sign, decimal digits with single
    underscores allowed between them, optional white space.  A text
    outside ASCII is first brought to ASCII: its blanks become spaces and
    its decimal digits the ASCII ones, and it is cut at the first
    character that is neither, replaced by a question mark. *)

(** [Py_UNICODE_ISSPACE] above ASCII. *)
Definition unicode_isspace (n : N) : bool :=
  ((n =? 0x85) || (n =? 0xA0) || (n =? 0x1680)
   || ((0x2000 <=? n) && (n <=? 0x200A))
   || (n =? 0x2028) || (n =? 0x2029) || (n =? 0x202F) || (n =? 0x205F)
   || (n =? 0x3000))%N.

(** Where the ten decimal digits of a script start (category Nd of
    Unicode 14, ASCII and the mathematical digits apart). *)
Definition decimal_blocks : list N :=
  [0x660; 0x6F0; 0x7C0; 0x966; 0x9E6; 0xA66; 0xAE6; 0xB66; 0xBE6; 0xC66;
   0xCE6; 0xD66; 0xDE6; 0xE50; 0xED0; 0xF20; 0x1040; 0x1090; 0x17E0; 0x1810;
   0x1946; 0x19D0; 0x1A80; 0x1A90; 0x1B50; 0x1BB0; 0x1C40; 0x1C50; 0xA620;
   0xA8D0; 0xA900; 0xA9D0; 0xA9F0; 0xAA50; 0xABF0; 0xFF10;
   0x104A0; 0x10D30; 0x11066; 0x110F0; 0x11136; 0x111D0; 0x112F0; 0x11450;
   0x114D0; 0x11650; 0x116C0; 0x11730; 0x118E0; 0x11950; 0x11C50; 0x11D50;
   0x11DA0; 0x16A60; 0x16AC0; 0x16B50;
   0x1E140; 0x1E2F0; 0x1E950; 0x1FBF0]%N.

(** [Py_UNICODE_TODECIMAL] above ASCII: the five sets of mathematical
    digits stand in one run. *)
Definition unicode_todecimal (n : N) : option N :=
  if ((0x1D7CE <=? n) && (n <=? 0x1D7FF))%N then Some ((n - 0x1D7CE) mod 10)%N
  else
    match find (fun b => (b <=? n) && (n <? b + 10))%N decimal_blocks with
    | Some b => Some (n - b)%N
    | None => None
    end.

Fixpoint decimal_and_space_to_ascii (cps : list N) : list ascii :=
  match cps with
  | [] => []
  | n :: cps' =>
    if (n <? 127)%N then ascii_of_N n :: decimal_and_space_to_ascii cps'
    else if unicode_isspace n then " "%char :: decimal_and_space_to_ascii cps'
    else
      match unicode_todecimal n with
      | Some d => ascii_of_N (48 + d) :: decimal_and_space_to_ascii cps'
      | None => ["?"%char]
      end
  end.

Definition is_ascii (s : string) : bool :=
  forallb (fun c => (code c <? 128)%N) (list_ascii_of_string s).

(** The ASCII text [int] reads. *)
Definition int_buffer (s : string) : list ascii :=
  if is_ascii s then list_ascii_of_string s
  else decimal_and_space_to_ascii (code_points s).

Definition is_space (c : ascii) : bool :=
  let n := code c in (((9 <=? n) && (n <=? 13)) || (n =? 32))%N.

Definition is_digit (c : ascii) : bool :=
  let n := code c in ((48 <=? n) && (n <=? 57))%N.

Definition digit_value (c : ascii) : Z := Z.of_N (code c) - 48.

Fixpoint skip_spaces (cs : list ascii) : list ascii :=
  match cs with
  | c :: cs' => if is_space c then skip_spaces cs' else cs
  | [] => []
  end.

(** The digits after a first one: the value read, the number of digits
    and what is left.  An underscore is passed when a digit follows. *)
Fixpoint scan_digits (acc : Z) (digits : nat) (cs : list ascii)
  : Z * nat * list ascii :=
  match cs with
  | c :: cs' =>
    if is_digit c then scan_digits (10 * acc + digit_value c) (S digits) cs'
    else if Ascii.eqb c "_"%char then
      match cs' with
      | d :: cs'' =>
        if is_digit d
        then scan_digits (10 * acc + digit_value d) (S digits) cs''
        else (acc, digits, cs)
      | [] => (acc, digits, cs)
      end
    else (acc, digits, cs)
  | [] => (acc, digits, [])
  end.

Inductive parsed : Type :=
| Parsed (n : Z)
| TooManyDigits (digits : nat)
| Invalid.

(** A misplaced underscore is found while the digits are read, their
    number is checked when they are read, what follows them after that. *)
Definition parse_int (cs : list ascii) : parsed :=
  let cs := skip_spaces cs in
  let '(sign, cs) :=
    match cs with
    | c :: cs' =>
      if Ascii.eqb c "+"%char then (1, cs')
      else if Ascii.eqb c "-"%char then (-1, cs')
      else (1, cs)
    | [] => (1, cs)
    end in
  match cs with
  | c :: cs' =>
    if is_digit c then
      let '(n, digits, rest) := scan_digits (digit_value c) 1 cs' in
      match rest with
      | u :: _ =>
        if Ascii.eqb u "_"%char then Invalid
        else if (int_max_str_digits <? digits)%nat then TooManyDigits digits
        else
          match skip_spaces rest with
          | [] => Parsed (sign * n)
          | _ :: _ => Invalid
          end
      | [] =>
        if (int_max_str_digits <? digits)%nat then TooManyDigits digits
        else Parsed (sign * n)
      end
    else Invalid
  | [] => Invalid
  end.

Definition py_int (s : string) : result Z :=
  match parse_int (int_buffer s) with
  | Parsed n => Ok n
  | TooManyDigits digits =>
    Raise (ValueError (str_digits_error ++ ": value has "
                       ++ str_of_int (Z.of_nat digits) ++ " digits"
                       ++ set_digits_hint))
  | Invalid =>
    Raise (ValueError ("invalid literal for int() with base 10: " ++ repr_200 s))
  end.

(** *** [print]

    What standard output does with a text written to it: it takes it, or
    the write raises, when the text has no encoding there or the stream
    is closed. *)
Definition stdout_behaviour : Type := string -> option exn.

(** A standard output that takes every text. *)
Definition utf8_stdout : stdout_behaviour := fun _ => None.

(** [print(s)]: the text and a line end, appended to standard output. *)
Definition print (out : stdout_behaviour) (s : string) (stdout : string)
  : result string :=
  match out s with
  | Some e => Raise e
  | None => Ok (stdout ++ s ++ chr newline)%string
  end.

End Builtins.

(** ** The search library, as the script uses it *)

(** What iterating [ddgs.text(query, max_results=n)] does: it hands over a
    record, or is exhausted, or raises (a call of [text] that raises is a
    sequence that raises at once). *)
Inductive upstream : Type :=
| Exhausted
| Fault (e : exn)
| Item (r : pyval) (rest : upstream).

(** The sequence that hands over [records] and then goes on as [tail]. *)
Fixpoint emit (records : list pyval) (tail : upstream) : upstream :=
  match records with
  | [] => tail
  | r :: records' => Item r (emit records' tail)
  end.

Record DDGS : Type := mkDDGS {
  ddgs_enter : option exn;                  (* [DDGS()] or [__enter__] raises *)
  ddgs_text : string -> Z -> upstream;      (* [ddgs.text(query, max_results=n)] *)
  ddgs_exit : option exn                    (* [__exit__] raises *)
}.

(** ** The script *)

Module Script.
Import Text Builtins.

Definition source_tag : string := "ddg-python".

(** Lines 17-22: the entry appended for one record. *)
Definition make_result (r : pyval) : result pyval :=
  title <- py_get r "title" (PStr EmptyString) ;;
  url <- py_get r "href" (PStr EmptyString) ;;
  description <- py_get r "body" (PStr EmptyString) ;;
  Ok (PDict [("title", title);
             ("url", url);
             ("description", description);
             ("source", PStr source_tag)]).

(** Lines 16-22: the loop, [results] being the list built so far. *)
Fixpoint for_loop (results : list pyval) (it : upstream) : result (list pyval) :=
  match it with
  | Exhausted => Ok results
  | Fault e => Raise e
  | Item r rest =>
    entry <- make_result r ;;
    for_loop (results ++ [entry]) rest
  end.

(** Lines 24-29. *)
Definition success_response (query : string) (results : list pyval) : pyval :=
  PDict [("success", PBool true);
         ("query", PStr query);
         ("results", PList results);
         ("count", PInt (Z.of_nat (length results)))].

(** Lines 31-36. *)
Definition failure_response (query : string) (e : exn) : pyval :=
  PDict [("success", PBool false);
         ("error", PStr (exn_str e));
         ("query", PStr query);
         ("results", PList [])].

(** Lines 14-29: the [with] statement.  The session is released when the
    block is left, by [return] or by an exception; an exception raised by
    the release takes the place of either. *)
Definition with_block (ddgs : DDGS) (query : string) (max_results : Z)
  : result pyval :=
  match ddgs_enter ddgs with
  | Some e => Raise e
  | None =>
    let block :=
      results <- for_loop [] (ddgs_text ddgs query max_results) ;;
      Ok (success_response query results) in
    match ddgs_exit ddgs with
    | Some e => Raise e
    | None => block
    end
  end.

(** Lines 11-36: [except Exception as e] handles the instances of
    [Exception]; any other exception goes on to the caller. *)
Definition search (ddgs : DDGS) (query : string) (max_results : Z)
  : result pyval :=
  match with_block ddgs query max_results with
  | Ok response => Ok response
  | Raise e =>
    if exn_is_Exception e then Ok (failure_response query e) else Raise e
  end.

(** Line 11: [max_results=20]. *)
Definition search_default (ddgs : DDGS) (query : string) : result pyval :=
  search ddgs query 20.

(** *** The process *)

Inductive termination : Type :=
| Exit (code : Z)          (* [sys.exit(code)], or the end of the script: 0 *)
| Uncaught (e : exn).      (* an exception nothing handles *)

Record process : Type := mkProcess {
  stdout : string;
  status : termination
}.

(** The exit status the parent sees.  The interpreter ends with 1 on an
    unhandled [Exception]; on another exception as that exception has
    it. *)
Definition exit_status (t : termination) : option Z :=
  match t with
  | Exit code => Some code
  | Uncaught e => if exn_is_Exception e then Some 1 else exn_exit e
  end.

(** The run of a block that ends by [sys.exit(code)], or at the end of
    the script with code 0: what it printed and the code, or the
    exception that ended it before it had printed. *)
Definition run (block : result (string * Z)) : process :=
  match block with
  | Ok (out, code) => mkProcess out (Exit code)
  | Raise e => mkProcess EmptyString (Uncaught e)
  end.

(** Line 40. *)
Definition usage_error : pyval := PDict [("error", PStr "No query provided")].

(** Lines 46-47. *)
Definition search_and_print (out : stdout_behaviour) (ddgs : DDGS)
    (query : string) (max_results : Z) : result string :=
  result <- search ddgs query max_results ;;
  line <- json_dumps false result ;;
  print out line EmptyString.

(** Line 44. *)
Definition max_results_arg (argv : list string) : result Z :=
  if (2 <? length argv)%nat
  then arg <- py_index argv 2 ;; py_int arg
  else Ok 20.

(** Lines 38-47, [argv] being [sys.argv]: the script's path, then the
    arguments. *)
Definition main_on (out : stdout_behaviour) (ddgs : DDGS) (argv : list string)
  : process :=
  run (if (length argv <? 2)%nat then
         line <- json_dumps true usage_error ;;
         printed <- print out line EmptyString ;;
         Ok (printed, 1)
       else
         query <- py_index argv 1 ;;
         max_results <- max_results_arg argv ;;
         printed <- search_and_print out ddgs query max_results ;;
         Ok (printed, 0)).

(** The script on a standard output that takes every text. *)
Definition main (ddgs : DDGS) (argv : list string) : process :=
  main_on utf8_stdout ddgs argv.

End Script.

(** * What the capability does, in the specification's terms *)

Module Capability.
Import Script.

(** The entry of a record that is a mapping: each field is the record's
    own value, or the empty text where the record has none. *)
Definition field (d : dict) (key : string) : pyval :=
  match dict_lookup key d with
  | Some v => v
  | None => PStr EmptyString
  end.

Definition normalize (d : dict) : pyval :=
  PDict [("title", field d "title");
         ("url", field d "href");
         ("description", field d "body");
         ("source", PStr "ddg-python")].

(** The capability raises nothing and hands over the mappings [ds], in
    this order. *)
Definition delivers (ddgs : DDGS) (query : string) (n : Z) (ds : list dict)
  : Prop :=
  ddgs_enter ddgs = None
  /\ ddgs_text ddgs query n = emit (map PDict ds) Exhausted
  /\ ddgs_exit ddgs = None.

(** The fault [e] is raised inside [search] and reaches its handler:
    while the session is acquired, by the iteration after some records,
    by the field access on a record, or while the session is released. *)
Inductive faults_with (ddgs : DDGS) (query : string) (n : Z) (e : exn)
  : Prop :=
| fault_in_acquisition :
    ddgs_enter ddgs = Some e ->
    faults_with ddgs query n e
| fault_in_iteration (ds : list dict) :
    ddgs_enter ddgs = None ->
    ddgs_text ddgs query n = emit (map PDict ds) (Fault e) ->
    ddgs_exit ddgs = None ->
    faults_with ddgs query n e
| fault_in_field_access (ds : list dict) (r : pyval) (rest : upstream) :
    ddgs_enter ddgs = None ->
    ddgs_text ddgs query n = emit (map PDict ds) (Item r rest) ->
    py_get r "title" (PStr EmptyString) = Raise e ->
    ddgs_exit ddgs = None ->
    faults_with ddgs query n e
| fault_in_release :
    ddgs_enter ddgs = None ->
    ddgs_exit ddgs = Some e ->
    faults_with ddgs query n e.

(** Every value a record holds under the three keys the script reads is
    a text. *)
Definition text_or_absent (key : string) (d : dict) : bool :=
  match dict_lookup key d with
  | Some (PStr _) | None => true
  | Some _ => false
  end.

Definition text_record (d : dict) : bool :=
  text_or_absent "title" d && text_or_absent "href" d
  && text_or_absent "body" d.

Fixpoint text_records (it : upstream) : bool :=
  match it with
  | Item (PDict d) rest => text_record d && text_records rest
  | Item _ rest => text_records rest
  | Exhausted | Fault _ => true
  end.

(** A well-formed entry of [results]. *)
Definition has_four_fields (entry : pyval) : Prop :=
  exists title url description : pyval,
    entry = PDict [("title", title);
                   ("url", url);
                   ("description", description);
                   ("source", PStr "ddg-python")].

Definition has_text_fields (entry : pyval) : Prop :=
  exists title url description : string,
    entry = PDict [("title", PStr title);
                   ("url", PStr url);
                   ("description", PStr description);
                   ("source", PStr "ddg-python")].

(** How an iteration ends: exhausted after mappings only, or by a fault
    of the iterator, or on an object whose field cannot be read. *)
Inductive ending : upstream -> Type :=
| ends_exhausted (ds : list dict) :
    ending (emit (map PDict ds) Exhausted)
| ends_fault (ds : list dict) (e : exn) :
    ending (emit (map PDict ds) (Fault e))
| ends_unreadable (ds : list dict) (r : pyval) (rest : upstream) (e : exn) :
    py_get r "title" (PStr EmptyString) = Raise e ->
    ending (emit (map PDict ds) (Item r rest)).

(** The line the specification gives for a run without a query: the
    object with the one member [error], and the line end of [print]. *)
Definition no_query_line : string :=
  ("{" ++ Text.quoted "error" ++ ": " ++ Text.quoted "No query provided"
   ++ "}" ++ Text.chr Text.newline)%string.

(** Two capabilities do the same for one request: they hand over the
    same records and raise nothing, or the same fault reaches the
    handler. *)
Definition same_behaviour (ddgs1 ddgs2 : DDGS) (query : string) (n : Z)
  : Prop :=
  (exists ds, delivers ddgs1 query n ds /\ delivers ddgs2 query n ds)
  \/ (exists e, faults_with ddgs1 query n e /\ faults_with ddgs2 query n e).

(** What the specification promises after every fault: the failure
    response, with a text that is not empty in [error]. *)
Definition reported_with_text (ddgs : DDGS) (query : string) (n : Z) : Prop :=
  exists msg : string,
    msg <> EmptyString
    /\ search ddgs query n
       = Ok (PDict [("success", PBool false);
                    ("error", PStr msg);
                    ("query", PStr query);
                    ("results", PList [])]).

End Capability.

(** * Capabilities to run the script on *)

Module Samples.

Definition full_record (title href body : string) : dict :=
  [("title", PStr title); ("href", PStr href); ("body", PStr body)].

Definition three_records : list dict :=
  [full_record "Alpha" "https://a.example" "first";
   full_record "Beta" "https://b.example" "second";
   full_record "Gamma" "https://c.example" "third"].

(** Three records with all their fields, whatever is asked. *)
Definition answering : DDGS :=
  mkDDGS None (fun _ _ => emit (map PDict three_records) Exhausted) None.

(** Answers the query [test] only when asked for 20 records, and echoes
    nothing of the query otherwise. *)
Definition answering_test_20 : DDGS :=
  mkDDGS None
    (fun query n =>
       if String.eqb query "test" && (n =? 20)
       then emit (map PDict three_records) Exhausted
       else Exhausted)
    None.

(** A record that lacks its link and its snippet. *)
Definition title_only : DDGS :=
  mkDDGS None (fun _ _ => Item (PDict [("title", PStr "Alpha")]) Exhausted) None.

(** A record whose title is [None]. *)
Definition null_title_record : dict :=
  [("title", PNone); ("href", PStr "https://a.example"); ("body", PStr "first")].

Definition null_title : DDGS :=
  mkDDGS None (fun _ _ => Item (PDict null_title_record) Exhausted) None.

(** The rate limit hit at once, and after two records. *)
Definition ratelimit : exn := mkExn "RatelimitException" true "202 Ratelimit".

Definition failing_at_once : DDGS :=
  mkDDGS None (fun _ _ => Fault ratelimit) None.

Definition failing_after_two : DDGS :=
  mkDDGS None
    (fun _ _ => emit (map PDict (firstn 2 three_records)) (Fault ratelimit))
    None.

(** [TimeoutError()]: an exception raised without a message, whose
    [str] is empty. *)
Definition timeout_error : exn := mkExn "TimeoutError" true EmptyString.

Definition timing_out : DDGS :=
  mkDDGS None (fun _ _ => Fault timeout_error) None.

(** The user interrupts the iteration: [KeyboardInterrupt] derives from
    [BaseException], not from [Exception]. *)
Definition keyboard_interrupt : exn :=
  mkException "KeyboardInterrupt" false EmptyString None.

Definition interrupted : DDGS :=
  mkDDGS None (fun _ _ => Item (PDict (full_record "Alpha" "https://a.example" "first"))
                            (Fault keyboard_interrupt)) None.

(** The session cannot be opened. *)
Definition unreachable : DDGS :=
  mkDDGS (Some (mkExn "ConnectError" true "connection refused"))
    (fun _ _ => Exhausted) None.

(** Whatever is asked with one cap, the title of the one record tells
    the cap. *)
Definition telling_the_cap : DDGS :=
  mkDDGS None
    (fun _ n => Item (PDict [("title", PStr (Text.str_of_int n))]) Exhausted)
    None.

End Samples.

(** * What is printed, in the specification's terms *)

Module Output.
Import Text Builtins.

(** A text without a line break. *)
Definition one_line (s : string) : Prop := contains newline s = false.

(** A character [json.dumps] has no escape for when [ensure_ascii] is
    off: no control character, not the quote, not the backslash.  Every
    byte of a character outside ASCII is one. *)
Definition plain (c : ascii) : bool :=
  (32 <=? code c)%N && negb (Ascii.eqb c dquote) && negb (Ascii.eqb c backslash).

Definition plain_text (s : string) : bool :=
  forallb plain (list_ascii_of_string s).

(** The line of a failure, with the texts as [json.dumps] writes them. *)
Definition failure_line (error query : string) : string :=
  ("{" ++ quoted "success" ++ ": false, "
   ++ quoted "error" ++ ": " ++ json_string false error ++ ", "
   ++ quoted "query" ++ ": " ++ json_string false query ++ ", "
   ++ quoted "results" ++ ": []}" ++ chr newline)%string.

(** The same text, before [print] ends the line. *)
Definition failure_text (error query : string) : string :=
  ("{" ++ quoted "success" ++ ": false, "
   ++ quoted "error" ++ ": " ++ json_string false error ++ ", "
   ++ quoted "query" ++ ": " ++ json_string false query ++ ", "
   ++ quoted "results" ++ ": []}")%string.

(** The text of a success with one entry that has a title only. *)
Definition cap_told_text (query title : string) : string :=
  ("{" ++ quoted "success" ++ ": true, "
   ++ quoted "query" ++ ": " ++ json_string false query ++ ", "
   ++ quoted "results" ++ ": [{"
   ++ quoted "title" ++ ": " ++ json_string false title ++ ", "
   ++ quoted "url" ++ ": " ++ quoted EmptyString ++ ", "
   ++ quoted "description" ++ ": " ++ quoted EmptyString ++ ", "
   ++ quoted "source" ++ ": " ++ quoted "ddg-python" ++ "}], "
   ++ quoted "count" ++ ": 1}")%string.

(** The line of a search that found nothing. *)
Definition nothing_found_line (query : string) : string :=
  ("{" ++ quoted "success" ++ ": true, "
   ++ quoted "query" ++ ": " ++ json_string false query ++ ", "
   ++ quoted "results" ++ ": [], "
   ++ quoted "count" ++ ": 0}" ++ chr newline)%string.

(** The run that asks the capability for [query] with the cap [cap] and
    prints what comes of it: the response with the entries of the records
    handed over, the failure line for a fault the handler takes, nothing
    when an exception is left unhandled. *)
Definition prints_search (ddgs : DDGS) (query : string) (cap : Z)
    (p : Script.process) : Prop :=
  (forall ds : list dict,
      Capability.delivers ddgs query cap ds ->
      let response :=
        PDict [("success", PBool true);
               ("query", PStr query);
               ("results", PList (map Capability.normalize ds));
               ("count", PInt (Z.of_nat (length ds)))] in
      (forall line, json_dumps false response = Ok line ->
                    p = Script.mkProcess (line ++ chr newline) (Script.Exit 0))
      /\ (forall e, json_dumps false response = Raise e ->
                    p = Script.mkProcess EmptyString (Script.Uncaught e)))
  /\ (forall e : exn,
        Capability.faults_with ddgs query cap e ->
        (exn_is_Exception e = true ->
         p = Script.mkProcess (failure_line (exn_str e) query) (Script.Exit 0))
        /\ (exn_is_Exception e = false ->
            p = Script.mkProcess EmptyString (Script.Uncaught e))).

(** The text of the usage error, before [print] ends the line. *)
Definition no_query_text : string :=
  ("{" ++ quoted "error" ++ ": " ++ quoted "No query provided" ++ "}")%string.

(** The run reaches the end of the script, having printed [line]. *)
Definition returns_normally (out : stdout_behaviour) (ddgs : DDGS)
    (argv : list string) (line : string) : Prop :=
  exists (query : string) (cap : Z) (response : pyval),
    py_index argv 1 = Ok query
    /\ Script.max_results_arg argv = Ok cap
    /\ Script.search ddgs query cap = Ok response
    /\ json_dumps false response = Ok line
    /\ out line = None.

(** The exception [e] is raised where nothing handles it: by the
    [print] of the usage error, by [int] on the second argument, by
    [search] when its handler does not take it, by [json.dumps] or by
    [print] on the response. *)
Inductive unhandled (out : stdout_behaviour) (ddgs : DDGS)
    (argv : list string) (e : exn) : Prop :=
| unhandled_usage :
    (length argv < 2)%nat ->
    out no_query_text = Some e ->
    unhandled out ddgs argv e
| unhandled_int (arg : string) :
    nth_error argv 2 = Some arg ->
    py_int arg = Raise e ->
    unhandled out ddgs argv e
| unhandled_search (query : string) (cap : Z) :
    py_index argv 1 = Ok query ->
    Script.max_results_arg argv = Ok cap ->
    Script.search ddgs query cap = Raise e ->
    unhandled out ddgs argv e
| unhandled_dumps (query : string) (cap : Z) (response : pyval) :
    py_index argv 1 = Ok query ->
    Script.max_results_arg argv = Ok cap ->
    Script.search ddgs query cap = Ok response ->
    json_dumps false response = Raise e ->
    unhandled out ddgs argv e
| unhandled_print (query : string) (cap : Z) (response : pyval) (line : string) :
    py_index argv 1 = Ok query ->
    Script.max_results_arg argv = Ok cap ->
    Script.search ddgs query cap = Ok response ->
    json_dumps false response = Ok line ->
    out line = Some e ->
    unhandled out ddgs argv e.

(** A record whose title [json.dumps] has no encoding for. *)
Definition bytes_title : DDGS :=
  mkDDGS None
    (fun _ _ => Item (PDict [("title", POther "bytes")]) Exhausted) None.

(** The library ends the interpreter itself: [SystemExit(1)] is no
    [Exception] and ends it with status 1. *)
Definition system_exit_1 : exn := mkException "SystemExit" false "1" (Some 1).

Definition exiting : DDGS := mkDDGS None (fun _ _ => Fault system_exit_1) None.

(** A standard output in ASCII: a text with another character has no
    encoding there. *)
Definition ascii_stdout : stdout_behaviour :=
  fun s =>
    if is_ascii s then None
    else Some (mkExn "UnicodeEncodeError" true
                 "'ascii' codec can't encode characters: ordinal not in range(128)").

(** The number a decimal numeral denotes, read from its first digit on,
    [acc] being the number read so far. *)
Fixpoint digits_value (acc : Z) (u : Decimal.uint) : Z :=
  match u with
  | Decimal.Nil => acc
  | Decimal.D0 l => digits_value (10 * acc) l
  | Decimal.D1 l => digits_value (10 * acc + 1) l
  | Decimal.D2 l => digits_value (10 * acc + 2) l
  | Decimal.D3 l => digits_value (10 * acc + 3) l
  | Decimal.D4 l => digits_value (10 * acc + 4) l
  | Decimal.D5 l => digits_value (10 * acc + 5) l
  | Decimal.D6 l => digits_value (10 * acc + 6) l
  | Decimal.D7 l => digits_value (10 * acc + 7) l
  | Decimal.D8 l => digits_value (10 * acc + 8) l
  | Decimal.D9 l => digits_value (10 * acc + 9) l
  end.

(** The Russian word for search, in UTF-8. *)
Definition cyrillic_query : string :=
  string_of_list_ascii
    (map ascii_of_nat [208; 191; 208; 190; 208; 184; 209; 129; 208; 186]%nat).

(** A record with fields the script does not read. *)
Definition record_with_extras : dict :=
  [("rank", PInt 1); ("title", PStr "Alpha"); ("href", PStr "https://a.example");
   ("body", PStr "first"); ("lang", PStr "en")].

(** Nothing is found. *)
Definition finding_nothing : DDGS := mkDDGS None (fun _ _ => Exhausted) None.

(** Reading the inside of a JSON string: a backslash takes the next
    character with it, and no quote may stand alone.  When this holds, the
    first quote a reader meets after the opening one is the closing one. *)
Fixpoint well_escaped (cs : list ascii) : bool :=
  match cs with
  | [] => true
  | c :: cs' =>
    if Ascii.eqb c backslash then
      match cs' with
      | [] => false
      | _ :: cs'' => well_escaped cs''
      end
    else negb (Ascii.eqb c dquote) && well_escaped cs'
  end.

(** A character that neither ends a string nor escapes. *)
Definition ordinary (c : ascii) : Prop := c <> dquote /\ c <> backslash.

(** A piece that leaves the reader of a text where it was: ordinary
    characters, or a backslash, the character it escapes and ordinary
    characters. *)
Inductive piece : string -> Prop :=
| piece_plain (s : string) :
    Forall ordinary (list_ascii_of_string s) -> piece s
| piece_escape (c : ascii) (s : string) :
    Forall ordinary (list_ascii_of_string s) ->
    piece (String backslash (String c s)).

(** Induction on a value, through the lists and mappings inside it. *)
Section PyvalInduction.

Variable P : pyval -> Prop.
Hypothesis HNone : P PNone.
Hypothesis HBool : forall b, P (PBool b).
Hypothesis HInt : forall z, P (PInt z).
Hypothesis HStr : forall s, P (PStr s).
Hypothesis HList : forall l, Forall P l -> P (PList l).
Hypothesis HDict :
  forall d, Forall (fun member => P (snd member)) d -> P (PDict d).
Hypothesis HOther : forall type, P (POther type).

Fixpoint pyval_induction (v : pyval) : P v :=
  match v with
  | PNone => HNone
  | PBool b => HBool b
  | PInt z => HInt z
  | PStr s => HStr s
  | PList l =>
    HList l
      ((fix all (l : list pyval) : Forall P l :=
          match l with
          | [] => Forall_nil P
          | x :: l' => Forall_cons x (pyval_induction x) (all l')
          end) l)
  | PDict d =>
    HDict d
      ((fix all (d : list (string * pyval))
          : Forall (fun member => P (snd member)) d :=
          match d with
          | [] => Forall_nil _
          | (k, x) :: d' =>
            Forall_cons (P := fun member => P (snd member)) (k, x)
              (pyval_induction x) (all d')
          end) d)
  | POther type => HOther type
  end.

End PyvalInduction.

End Output.

(** * The search invoker *)

Module SearchFacts.
Import Script Capability.

Lemma make_result_mapping (d : dict) : make_result (PDict d) = Ok (normalize d).
Proof. reflexivity. Qed.

(** An object that is no mapping fails at the first field read. *)
Lemma make_result_fault (r : pyval) (e : exn) :
  make_result r = Raise e <-> py_get r "title" (PStr EmptyString) = Raise e.
Proof.
  destruct r; simpl; split; intro H; try exact H; discriminate H.
Qed.

Lemma make_result_is_Exception (r : pyval) (e : exn) :
  make_result r = Raise e -> exn_is_Exception e = true.
Proof.
  destruct r; simpl; intro H; inversion H; reflexivity.
Qed.

(** The loop appends the entries of the mappings it is handed, in their
    order, to what it has. *)
Lemma for_loop_emit (ds : list dict) :
  forall (acc : list pyval) (tail : upstream),
    for_loop acc (emit (map PDict ds) tail)
    = for_loop (acc ++ map normalize ds) tail.
Proof.
  induction ds as [|d ds IH]; intros acc tail; simpl.
  - now rewrite app_nil_r.
  - rewrite IH, <- app_assoc. reflexivity.
Qed.

Lemma upstream_ending (it : upstream) : ending it.
Proof.
  induction it as [| e | r rest IH].
  - exact (ends_exhausted []).
  - exact (ends_fault [] e).
  - destruct r as [| b | z | s | l | d | t];
      try (eapply (ends_unreadable []); reflexivity).
    destruct IH as [ds | ds e | ds r rest e H].
    + exact (ends_exhausted (d :: ds)).
    + exact (ends_fault (d :: ds) e).
    + exact (ends_unreadable (d :: ds) r rest e H).
Qed.

Lemma for_loop_unreadable (r : pyval) (rest : upstream) (e : exn) :
  py_get r "title" (PStr EmptyString) = Raise e ->
  forall acc, for_loop acc (Item r rest) = Raise e.
Proof.
  intros H acc. apply make_result_fault in H. simpl. now rewrite H.
Qed.

(** The two ways [search] comes back with a value. *)
Lemma search_of_delivery ddgs query n ds :
  delivers ddgs query n ds ->
  search ddgs query n = Ok (success_response query (map normalize ds)).
Proof.
  intros (Henter & Htext & Hexit).
  unfold search, with_block. rewrite Henter, Hexit, Htext, for_loop_emit.
  reflexivity.
Qed.

Lemma with_block_of_fault ddgs query n e :
  faults_with ddgs query n e -> with_block ddgs query n = Raise e.
Proof.
  intros [Henter | ds Henter Htext Hexit | ds r rest Henter Htext Hget Hexit
         | Henter Hexit];
    unfold with_block; rewrite Henter; try rewrite Hexit; try reflexivity.
  - rewrite Htext, for_loop_emit. reflexivity.
  - rewrite Htext, for_loop_emit, (for_loop_unreadable _ _ _ Hget).
    reflexivity.
Qed.

Lemma search_of_fault ddgs query n e :
  faults_with ddgs query n e ->
  search ddgs query n
  = if exn_is_Exception e then Ok (failure_response query e) else Raise e.
Proof.
  intro H. unfold search. now rewrite (with_block_of_fault _ _ _ _ H).
Qed.

(** Nothing else happens: the capability delivers, or a fault is raised. *)
Lemma delivers_or_faults ddgs query n :
  {ds | delivers ddgs query n ds} + {e | faults_with ddgs query n e}.
Proof.
  destruct (ddgs_enter ddgs) as [e|] eqn:Henter.
  { right. exists e. now apply fault_in_acquisition. }
  destruct (ddgs_exit ddgs) as [e|] eqn:Hexit.
  { right. exists e. now apply fault_in_release. }
  remember (ddgs_text ddgs query n) as it eqn:Htext. symmetry in Htext.
  destruct (upstream_ending it) as [ds | ds e | ds r rest e H].
  - left. exists ds. repeat split; assumption.
  - right. exists e. now apply fault_in_iteration with (ds := ds).
  - right. exists e.
    now apply fault_in_field_access with (ds := ds) (r := r) (rest := rest).
Qed.

Lemma search_returns ddgs query n response :
  search ddgs query n = Ok response ->
  (exists ds, delivers ddgs query n ds
              /\ response = success_response query (map normalize ds))
  \/ (exists e, faults_with ddgs query n e
                /\ response = failure_response query e).
Proof.
  intro H.
  destruct (delivers_or_faults ddgs query n) as [[ds Hd] | [e Hf]].
  - left. exists ds. split; [exact Hd|].
    rewrite (search_of_delivery _ _ _ _ Hd) in H. now inversion H.
  - right. exists e. split; [exact Hf|].
    rewrite (search_of_fault _ _ _ _ Hf) in H.
    destruct (exn_is_Exception e); now inversion H.
Qed.

(** Two runs against one capability see the same behaviour. *)
Lemma same_behaviour_refl ddgs query n : same_behaviour ddgs ddgs query n.
Proof.
  destruct (delivers_or_faults ddgs query n) as [[ds Hd] | [e Hf]];
    [left | right]; eauto.
Qed.

Lemma search_escapes ddgs query n e :
  search ddgs query n = Raise e -> exn_is_Exception e = false.
Proof.
  unfold search. destruct (with_block ddgs query n) as [v | e']; [discriminate|].
  destruct (exn_is_Exception e') eqn:He; [discriminate|].
  intro H. inversion H. now subst.
Qed.

End SearchFacts.

(** * The printed line *)

Module OutputFacts.
Import Text Builtins Script Output.

Lemma chars_app (s t : string) :
  list_ascii_of_string (s ++ t) = list_ascii_of_string s ++ list_ascii_of_string t.
Proof. induction s as [|c s IH]; simpl; [reflexivity | now rewrite IH]. Qed.

Lemma one_line_app (s t : string) : one_line s -> one_line t -> one_line (s ++ t).
Proof.
  unfold one_line, contains. intros Hs Ht.
  now rewrite chars_app, existsb_app, Hs, Ht.
Qed.

Lemma one_line_cons (c : ascii) (s : string) :
  c <> newline -> one_line s -> one_line (String c s).
Proof.
  unfold one_line, contains. intros Hc Hs.
  cbn [list_ascii_of_string existsb]. rewrite Hs.
  destruct (Ascii.eqb_spec newline c) as [E|_]; [congruence | reflexivity].
Qed.

Lemma one_line_concat (l : list string) :
  Forall one_line l -> one_line (String.concat EmptyString l).
Proof.
  induction 1 as [|s l Hs Hl IH]; [reflexivity|].
  destruct l as [|t l]; [exact Hs|].
  change (one_line (s ++ EmptyString ++ String.concat EmptyString (t :: l))).
  apply one_line_app; [exact Hs | exact IH].
Qed.

Lemma hex_digit_not_newline (n : N) : (n < 16)%N -> hex_digit n <> newline.
Proof.
  intro H.
  assert (E : In n (map N.of_nat (seq 0 16))).
  { apply in_map_iff. exists (N.to_nat n). split; [lia|]. apply in_seq. lia. }
  simpl in E.
  repeat (destruct E as [<- | E]; [discriminate|]). destruct E.
Qed.

Lemma one_line_hex2 (n : N) : one_line (hex2 n).
Proof.
  unfold hex2.
  assert (B : forall m, (N.land m 15 < 16)%N).
  { intro m. change 15%N with (N.ones 4). rewrite N.land_ones.
    apply N.mod_lt. discriminate. }
  repeat apply one_line_cons; try (apply hex_digit_not_newline, B). reflexivity.
Qed.

Lemma one_line_hex4 (n : N) : one_line (hex4 n).
Proof. unfold hex4. apply one_line_app; apply one_line_hex2. Qed.

Lemma one_line_escape_dct (n : N) (e : string) :
  escape_dct n = Some e -> one_line e.
Proof.
  unfold escape_dct.
  repeat match goal with
         | |- context [if ?b then _ else _] => destruct b
         end; intro H; inversion H; subst e; try reflexivity.
  apply one_line_cons; [discriminate|].
  apply one_line_cons; [discriminate|]. apply one_line_hex4.
Qed.

Lemma escape_dct_newline : forall n, escape_dct n = None -> n <> 10%N.
Proof. intros n H ->. discriminate H. Qed.

Lemma one_line_escape_byte (c : ascii) : one_line (escape_byte c).
Proof.
  unfold escape_byte. destruct (escape_dct (code c)) as [e|] eqn:H.
  - exact (one_line_escape_dct _ _ H).
  - apply one_line_cons; [|reflexivity].
    intros ->. exact (escape_dct_newline _ H eq_refl).
Qed.

Lemma one_line_escape_code_point (n : N) : one_line (escape_code_point n).
Proof.
  unfold escape_code_point. destruct (escape_dct n) as [e|] eqn:H.
  - exact (one_line_escape_dct _ _ H).
  - destruct ((32 <=? n)%N && (n <=? 126)%N) eqn:Hrange.
    + apply andb_prop in Hrange as [Hlo Hhi].
      apply N.leb_le in Hlo, Hhi.
      apply one_line_cons; [|reflexivity].
      intro E. apply (f_equal N_of_ascii) in E.
      rewrite N_ascii_embedding in E by lia. vm_compute in E. lia.
    + destruct (n <? 65536)%N.
      * repeat (apply one_line_cons; [discriminate|]). apply one_line_hex4.
      * apply one_line_app;
          repeat (apply one_line_cons; [discriminate|]); apply one_line_hex4.
Qed.

Lemma one_line_quoted (s : string) : one_line s -> one_line (quoted s).
Proof.
  intro H. unfold quoted.
  apply one_line_app; [reflexivity|]. apply one_line_app; [exact H | reflexivity].
Qed.

Lemma one_line_json_string (b : bool) (s : string) : one_line (json_string b s).
Proof.
  unfold json_string. apply one_line_quoted. destruct b.
  - apply one_line_concat, Forall_forall. intros e Hin.
    apply in_map_iff in Hin as (n & <- & _). apply one_line_escape_code_point.
  - apply one_line_concat, Forall_forall. intros e Hin.
    apply in_map_iff in Hin as (c & <- & _). apply one_line_escape_byte.
Qed.

Lemma one_line_uint (u : Decimal.uint) : one_line (NilEmpty.string_of_uint u).
Proof.
  induction u; [reflexivity|..]; cbn [NilEmpty.string_of_uint];
    (apply one_line_cons; [discriminate | exact IHu]).
Qed.

Lemma one_line_str_of_int (z : Z) : one_line (str_of_int z).
Proof.
  unfold str_of_int, NilZero.string_of_int, NilZero.string_of_uint.
  destruct (Z.to_int z) as [u|u]; destruct u;
    try reflexivity; try apply one_line_uint;
    (apply one_line_cons; [discriminate|]); try reflexivity; apply one_line_uint.
Qed.

Lemma one_line_int_repr (z : Z) (s : string) : int_repr z = Ok s -> one_line s.
Proof.
  unfold int_repr. destruct (int_max_str_digits <? numeral_digits z)%nat;
    [discriminate|].
  intro H. injection H as <-. apply one_line_str_of_int.
Qed.

(** A bound call that returned: the first call returned, and so did what
    follows it. *)
Lemma bind_Ok {A B : Type} (c : result A) (k : A -> result B) (b : B) :
  bind c k = Ok b -> exists a, c = Ok a /\ k a = Ok b.
Proof. destruct c as [a | e]; [eauto | discriminate]. Qed.

Lemma one_line_json_dumps (b : bool) (v : pyval) :
  forall s, json_dumps b v = Ok s -> one_line s.
Proof.
  induction v as [| [] | z | t | l IH | d IH | t] using pyval_induction;
    cbn [json_dumps]; intros s H; try (injection H as <-; reflexivity).
  - exact (one_line_int_repr _ _ H).
  - injection H as <-. apply one_line_json_string.
  - apply bind_Ok in H as (items & Hitems & H). injection H as <-.
    change (one_line (String "[" (items ++ "]"))).
    apply one_line_cons; [discriminate|]. apply one_line_app; [|reflexivity].
    revert items Hitems.
    induction IH as [|x l Hx Hl IHl]; intros items Hitems.
    + injection Hitems as <-. reflexivity.
    + destruct l as [|y l]; [exact (Hx _ Hitems)|].
      apply bind_Ok in Hitems as (first & Hfirst & Hitems).
      apply bind_Ok in Hitems as (others & Hothers & Hitems).
      injection Hitems as <-.
      apply one_line_app; [exact (Hx _ Hfirst)|].
      apply (one_line_app ", "); [reflexivity | exact (IHl _ Hothers)].
  - apply bind_Ok in H as (members & Hmembers & H). injection H as <-.
    change (one_line (String "{" (members ++ "}"))).
    apply one_line_cons; [discriminate|]. apply one_line_app; [|reflexivity].
    revert members Hmembers.
    induction IH as [|[k x] d Hx Hd IHd]; intros members Hmembers.
    + injection Hmembers as <-. reflexivity.
    + cbn [snd] in Hx. destruct d as [|[k' y] d].
      * apply bind_Ok in Hmembers as (value & Hvalue & Hmembers).
        injection Hmembers as <-.
        apply one_line_app; [apply one_line_json_string|].
        apply (one_line_app ": "); [reflexivity | exact (Hx _ Hvalue)].
      * apply bind_Ok in Hmembers as (value & Hvalue & Hmembers).
        apply bind_Ok in Hmembers as (others & Hothers & Hmembers).
        injection Hmembers as <-.
        apply one_line_app; [apply one_line_json_string|].
        apply (one_line_app ": "); [reflexivity|].
        apply one_line_app; [exact (Hx _ Hvalue)|].
        apply (one_line_app ", "); [reflexivity | exact (IHd _ Hothers)].
  - discriminate H.
Qed.

(** A character without an escape is written as it is. *)
Lemma escape_byte_plain (c : ascii) : plain c = true -> escape_byte c = chr c.
Proof.
  unfold plain, escape_byte, escape_dct. intro H.
  apply andb_prop in H as [H Hbackslash]. apply andb_prop in H as [Hlow Hquote].
  apply N.leb_le in Hlow.
  assert (Hq : code c <> 34%N).
  { intro E. apply (f_equal ascii_of_N) in E. unfold code in E.
    rewrite ascii_N_embedding in E. subst c. discriminate Hquote. }
  assert (Hb : code c <> 92%N).
  { intro E. apply (f_equal ascii_of_N) in E. unfold code in E.
    rewrite ascii_N_embedding in E. subst c. discriminate Hbackslash. }
  repeat match goal with
         | |- context [(?n =? ?m)%N] =>
           destruct (N.eqb_spec n m); [lia|]
         end.
  destruct (N.ltb_spec (code c) 32); [lia | reflexivity].
Qed.

Lemma concat_chr (l : list ascii) :
  String.concat EmptyString (map chr l) = string_of_list_ascii l.
Proof.
  induction l as [|c l IH]; [reflexivity|].
  destruct l as [|c' l]; [reflexivity|].
  change (String c (String.concat EmptyString (map chr (c' :: l)))
          = String c (string_of_list_ascii (c' :: l))).
  now rewrite IH.
Qed.

(** What [print] leaves on an empty output. *)
Lemma print_line (s : string) :
  print utf8_stdout s EmptyString = Ok (s ++ chr newline)%string.
Proof. reflexivity. Qed.

Lemma well_escaped_ordinary (cs rest : list ascii) :
  Forall ordinary cs -> well_escaped (cs ++ rest) = well_escaped rest.
Proof.
  induction 1 as [|c cs [Hq Hb] _ IH]; [reflexivity|].
  cbn [app well_escaped].
  destruct (Ascii.eqb_spec c backslash) as [E|_]; [contradiction|].
  destruct (Ascii.eqb_spec c dquote) as [E|_]; [contradiction|].
  exact IH.
Qed.

Lemma well_escaped_piece (s : string) (rest : list ascii) :
  piece s ->
  well_escaped (list_ascii_of_string s ++ rest) = well_escaped rest.
Proof.
  intros [s' H | c s' H].
  - now apply well_escaped_ordinary.
  - cbn [list_ascii_of_string app well_escaped].
    rewrite Ascii.eqb_refl. now apply well_escaped_ordinary.
Qed.

Lemma hex_digit_ordinary (n : N) : (n < 16)%N -> ordinary (hex_digit n).
Proof.
  intro H.
  assert (E : In n (map N.of_nat (seq 0 16))).
  { apply in_map_iff. exists (N.to_nat n). split; [lia|]. apply in_seq. lia. }
  simpl in E.
  repeat (destruct E as [<- | E]; [split; discriminate|]). destruct E.
Qed.

Lemma hex2_ordinary (n : N) : Forall ordinary (list_ascii_of_string (hex2 n)).
Proof.
  assert (B : forall m, (N.land m 15 < 16)%N).
  { intro m. change 15%N with (N.ones 4). rewrite N.land_ones.
    apply N.mod_lt. discriminate. }
  unfold hex2. cbn [list_ascii_of_string].
  repeat constructor; apply hex_digit_ordinary, B.
Qed.

Lemma hex4_ordinary (n : N) : Forall ordinary (list_ascii_of_string (hex4 n)).
Proof.
  unfold hex4. rewrite chars_app. apply Forall_app. split; apply hex2_ordinary.
Qed.

Lemma piece_escape_dct (n : N) (e : string) : escape_dct n = Some e -> piece e.
Proof.
  unfold escape_dct.
  repeat match goal with
         | |- context [if ?b then _ else _] => destruct b
         end; intro H; inversion H; subst e;
    try solve [apply piece_escape; constructor].
  apply piece_escape. apply hex4_ordinary.
Qed.

Lemma escape_dct_ordinary (n : N) :
  escape_dct n = None -> n <> 34%N /\ n <> 92%N.
Proof. intro H. split; intros ->; discriminate H. Qed.

Lemma piece_escape_byte (c : ascii) : piece (escape_byte c).
Proof.
  unfold escape_byte. destruct (escape_dct (code c)) as [e|] eqn:H.
  - exact (piece_escape_dct _ _ H).
  - apply piece_plain. constructor; [|constructor].
    destruct (escape_dct_ordinary _ H) as [Hq Hb].
    split; intros ->; [apply Hq | apply Hb]; reflexivity.
Qed.

Lemma pieces_app (s t : string) (rest : list ascii) :
  piece s -> piece t ->
  well_escaped (list_ascii_of_string (s ++ t) ++ rest) = well_escaped rest.
Proof.
  intros Hs Ht. rewrite chars_app, <- app_assoc.
  now rewrite !well_escaped_piece.
Qed.

Lemma piece_unicode_escape (n : N) :
  piece (String backslash ("u" ++ hex4 n)).
Proof. apply piece_escape. apply hex4_ordinary. Qed.

(** The pieces [ensure_ascii=True] writes: one piece, or the two of a
    surrogate pair. *)
Lemma well_escaped_code_point (n : N) (rest : list ascii) :
  well_escaped (list_ascii_of_string (escape_code_point n) ++ rest)
  = well_escaped rest.
Proof.
  unfold escape_code_point. destruct (escape_dct n) as [e|] eqn:H.
  - apply well_escaped_piece. exact (piece_escape_dct _ _ H).
  - destruct (escape_dct_ordinary _ H) as [Hq Hb].
    destruct ((32 <=? n)%N && (n <=? 126)%N) eqn:Hrange.
    + apply andb_prop in Hrange as [Hlo Hhi]. apply N.leb_le in Hlo, Hhi.
      apply well_escaped_piece, piece_plain. constructor; [|constructor].
      split; intro E; apply (f_equal N_of_ascii) in E;
        rewrite N_ascii_embedding in E by lia; vm_compute in E; lia.
    + destruct (n <? 65536)%N.
      * apply well_escaped_piece, piece_unicode_escape.
      * apply pieces_app; apply piece_unicode_escape.
Qed.

Lemma well_escaped_concat_map {A : Type} (f : A -> string) (l : list A) :
  (forall a rest,
      well_escaped (list_ascii_of_string (f a) ++ rest) = well_escaped rest) ->
  well_escaped (list_ascii_of_string (String.concat EmptyString (map f l)))
  = true.
Proof.
  intro Hf. induction l as [|a l IH]; [reflexivity|].
  destruct l as [|a' l].
  - cbn [map String.concat].
    rewrite <- (app_nil_r (list_ascii_of_string (f a))). now rewrite Hf.
  - change (String.concat EmptyString (map f (a :: a' :: l)))
      with (f a ++ EmptyString ++ String.concat EmptyString (map f (a' :: l)))%string.
    rewrite chars_app. cbn [append]. now rewrite Hf.
Qed.

Lemma append_assoc (s t u : string) : ((s ++ t) ++ u = s ++ t ++ u)%string.
Proof. induction s as [|c s IH]; simpl; [reflexivity | now rewrite IH]. Qed.

(** The two lines the script prints for a response without entries:
    [json.dumps] has an encoding for all they hold. *)
Lemma dumps_failure_response (query : string) (e : exn) :
  exists line : string,
    json_dumps false (failure_response query e) = Ok line
    /\ (line ++ chr newline)%string = failure_line (exn_str e) query.
Proof.
  unfold failure_line, failure_response. cbn [json_dumps bind].
  eexists. split; [reflexivity|].
  change (json_string false "success") with (quoted "success").
  change (json_string false "error") with (quoted "error").
  change (json_string false "query") with (quoted "query").
  change (json_string false "results") with (quoted "results").
  repeat rewrite append_assoc. reflexivity.
Qed.

Lemma dumps_nothing_found (query : string) :
  exists line : string,
    json_dumps false (success_response query []) = Ok line
    /\ (line ++ chr newline)%string = nothing_found_line query.
Proof.
  unfold nothing_found_line, success_response. cbn [json_dumps bind].
  eexists. split; [reflexivity|].
  change (json_string false "success") with (quoted "success").
  change (json_string false "query") with (quoted "query").
  change (json_string false "results") with (quoted "results").
  change (json_string false "count") with (quoted "count").
  repeat rewrite append_assoc. reflexivity.
Qed.

End OutputFacts.

(** * The second argument as a numeral *)

Module NumeralFacts.
Import Text Builtins Script Output.

Ltac eval_char_tests :=
  repeat (match goal with
          | |- context [is_space ?c] =>
            let b := eval vm_compute in (is_space c) in
            change (is_space c) with b
          | |- context [is_digit ?c] =>
            let b := eval vm_compute in (is_digit c) in
            change (is_digit c) with b
          | |- context [Ascii.eqb ?c ?d] =>
            let b := eval vm_compute in (Ascii.eqb c d) in
            change (Ascii.eqb c d) with b
          end; cbv beta iota).

Lemma scan_digits_uint (u : Decimal.uint) :
  forall acc k,
    scan_digits acc k (list_ascii_of_string (NilEmpty.string_of_uint u))
    = (digits_value acc u,
       (k + String.length (NilEmpty.string_of_uint u))%nat, []).
Proof.
  induction u; intros acc k;
    cbn [NilEmpty.string_of_uint list_ascii_of_string String.length
         scan_digits digits_value];
    try (rewrite Nat.add_0_r; reflexivity);
    eval_char_tests;
    repeat match goal with
           | |- context [digit_value ?c] =>
             let v := eval vm_compute in (digit_value c) in
             change (digit_value c) with v
           end;
    rewrite IHu;
    repeat match goal with
           | |- (_, _) = (_, _) => f_equal
           end;
    try lia; f_equal; lia.
Qed.

Lemma digits_value_pos (u : Decimal.uint) :
  forall a : positive, digits_value (Z.pos a) u = Z.pos (Pos.of_uint_acc u a).
Proof.
  induction u; intro a; cbn [digits_value Pos.of_uint_acc]; try reflexivity;
    rewrite <- IHu; f_equal; lia.
Qed.

Lemma digits_value_zero (u : Decimal.uint) :
  digits_value 0 u = Z.of_uint u.
Proof.
  unfold Z.of_uint.
  induction u; simpl; try reflexivity; try exact IHu;
    rewrite digits_value_pos; reflexivity.
Qed.

(** A numeral within the cap on the digits, alone or after a minus sign,
    is read as the number it denotes. *)
Lemma parse_int_unsigned (c : ascii) (cs : list ascii) (v : Z) (k : nat) :
  is_digit c = true ->
  scan_digits (digit_value c) 1 cs = (v, k, []) ->
  (k <= int_max_str_digits)%nat ->
  parse_int (c :: cs) = Parsed v
  /\ parse_int ("-"%char :: c :: cs) = Parsed (- v).
Proof.
  intros Hc Hscan Hk. apply Nat.ltb_ge in Hk.
  destruct c as [[] [] [] [] [] [] [] []]; try discriminate Hc;
    unfold parse_int; cbn [skip_spaces]; eval_char_tests;
    rewrite Hscan, Hk; split; f_equal; lia.
Qed.

Lemma uint_chars (u : Decimal.uint) :
  exists c cs,
    list_ascii_of_string (NilZero.string_of_uint u) = c :: cs
    /\ is_digit c = true
    /\ scan_digits (digit_value c) 1 cs
       = (Z.of_uint u, String.length (NilZero.string_of_uint u), []).
Proof.
  rewrite <- digits_value_zero.
  destruct u; unfold NilZero.string_of_uint;
    cbn [NilEmpty.string_of_uint list_ascii_of_string String.length];
    do 2 eexists; (split; [reflexivity|]); (split; [reflexivity|]);
    try reflexivity; rewrite scan_digits_uint; reflexivity.
Qed.

Lemma is_ascii_uint (u : Decimal.uint) :
  is_ascii (NilEmpty.string_of_uint u) = true.
Proof.
  unfold is_ascii.
  induction u; cbn [NilEmpty.string_of_uint list_ascii_of_string forallb];
    try reflexivity; rewrite IHu; reflexivity.
Qed.

Lemma is_ascii_numeral (u : Decimal.uint) :
  is_ascii (NilZero.string_of_uint u) = true.
Proof.
  destruct u; try reflexivity; unfold NilZero.string_of_uint;
    apply is_ascii_uint.
Qed.

Lemma int_buffer_ascii (s : string) :
  is_ascii s = true -> int_buffer s = list_ascii_of_string s.
Proof. unfold int_buffer. now intros ->. Qed.

(** [int(str(n))] is [n], as long as [str(n)] is within the cap. *)
Lemma py_int_str_of_int (n : Z) :
  (numeral_digits n <= int_max_str_digits)%nat -> py_int (str_of_int n) = Ok n.
Proof.
  unfold py_int, numeral_digits, str_of_int.
  destruct n as [|p|p]; [reflexivity| |];
    cbn [Z.abs Z.to_int NilZero.string_of_int]; intro Hk;
    destruct (uint_chars (Pos.to_uint p)) as (c & cs & Hchars & Hc & Hscan);
    destruct (parse_int_unsigned c cs _ _ Hc Hscan Hk) as [Hplus Hminus];
    unfold Z.of_uint in Hplus, Hminus;
    rewrite DecimalPos.Unsigned.of_to in Hplus, Hminus.
  - rewrite int_buffer_ascii by apply is_ascii_numeral.
    now rewrite Hchars, Hplus.
  - rewrite int_buffer_ascii
      by (change (is_ascii (NilZero.string_of_uint (Pos.to_uint p)) = true);
          apply is_ascii_numeral).
    cbn [list_ascii_of_string]. now rewrite Hchars, Hminus.
Qed.

End NumeralFacts.

(** * The entry point *)

Module MainFacts.
Import Text Builtins Script Capability Output SearchFacts OutputFacts.

(** Line 40: the usage error always has an encoding. *)
Lemma dumps_usage_error : json_dumps true usage_error = Ok no_query_text.
Proof. reflexivity. Qed.

Lemma main_on_missing (out : stdout_behaviour) (ddgs : DDGS) (argv : list string) :
  (length argv < 2)%nat ->
  main_on out ddgs argv
  = run (printed <- print out no_query_text EmptyString ;; Ok (printed, 1)).
Proof.
  intro H. unfold main_on.
  destruct (Nat.ltb_spec (length argv) 2) as [_ | Hge]; [reflexivity | lia].
Qed.

Lemma main_missing (ddgs : DDGS) (argv : list string) :
  (length argv < 2)%nat -> main ddgs argv = mkProcess no_query_line (Exit 1).
Proof. intro H. unfold main. now rewrite main_on_missing. Qed.

Lemma main_on_with_query (out : stdout_behaviour) (ddgs : DDGS)
    (prog query : string) (rest : list string) :
  main_on out ddgs (prog :: query :: rest)
  = run (max_results <- max_results_arg (prog :: query :: rest) ;;
         printed <- search_and_print out ddgs query max_results ;;
         Ok (printed, 0)).
Proof. reflexivity. Qed.

Lemma main_with_query (ddgs : DDGS) (prog query : string) (rest : list string) :
  main ddgs (prog :: query :: rest)
  = run (max_results <- max_results_arg (prog :: query :: rest) ;;
         printed <- search_and_print utf8_stdout ddgs query max_results ;;
         Ok (printed, 0)).
Proof. reflexivity. Qed.

Lemma max_results_arg_default (prog query : string) :
  max_results_arg [prog; query] = Ok 20.
Proof. reflexivity. Qed.

Lemma max_results_arg_given (prog query arg : string) (rest : list string) :
  max_results_arg (prog :: query :: arg :: rest) = py_int arg.
Proof.
  unfold max_results_arg.
  change (2 <? length (prog :: query :: arg :: rest))%nat with true.
  cbn [py_index nth_error bind]. reflexivity.
Qed.

Lemma py_int_raises_Exception (arg : string) (e : exn) :
  py_int arg = Raise e -> exn_is_Exception e = true.
Proof.
  unfold py_int. destruct (parse_int _); [discriminate| |];
    intro H; now inversion H.
Qed.

Lemma max_results_arg_raises (argv : list string) (e : exn) :
  max_results_arg argv = Raise e ->
  exn_is_Exception e = true
  /\ exists arg, nth_error argv 2 = Some arg /\ py_int arg = Raise e.
Proof.
  unfold max_results_arg, py_index.
  destruct (Nat.ltb_spec 2 (length argv)) as [Hlen | _]; [|discriminate].
  destruct (nth_error argv 2) as [arg|] eqn:Harg; cbn [bind]; intro H.
  - split; [now apply py_int_raises_Exception with (arg := arg)|]. eauto.
  - (* the index is in range: the length exceeds 2 *)
    apply nth_error_None in Harg. lia.
Qed.

(** A run with a query: the search and the two steps of line 47. *)
Lemma main_on_query (out : stdout_behaviour) (ddgs : DDGS) (argv : list string)
    (query : string) (cap : Z) :
  py_index argv 1 = Ok query ->
  max_results_arg argv = Ok cap ->
  main_on out ddgs argv
  = run (result <- search ddgs query cap ;;
         line <- json_dumps false result ;;
         printed <- print out line EmptyString ;;
         Ok (printed, 0)).
Proof.
  intros Hquery Hcap.
  destruct argv as [|prog [|query' rest]]; try discriminate Hquery.
  injection Hquery as ->.
  rewrite main_on_with_query, Hcap. unfold search_and_print. cbn [bind].
  destruct (search ddgs query cap) as [response | e]; [|reflexivity].
  cbn [bind]. destruct (json_dumps false response) as [line | e];
    reflexivity.
Qed.

Lemma main_on_returns (out : stdout_behaviour) (ddgs : DDGS)
    (argv : list string) (line : string) :
  returns_normally out ddgs argv line ->
  main_on out ddgs argv = mkProcess (line ++ chr newline) (Exit 0).
Proof.
  intros (query & cap & response & Hquery & Hcap & Hsearch & Hdumps & Hout).
  rewrite (main_on_query _ _ _ _ _ Hquery Hcap), Hsearch. cbn [bind].
  rewrite Hdumps. cbn [bind]. unfold print. now rewrite Hout.
Qed.

Lemma main_on_unhandled (out : stdout_behaviour) (ddgs : DDGS)
    (argv : list string) (e : exn) :
  unhandled out ddgs argv e ->
  main_on out ddgs argv = mkProcess EmptyString (Uncaught e).
Proof.
  intros [Hlen Hout | arg Harg Hint | query cap Hquery Hcap Hsearch
         | query cap response Hquery Hcap Hsearch Hdumps
         | query cap response line Hquery Hcap Hsearch Hdumps Hout].
  - rewrite main_on_missing by exact Hlen. unfold print. now rewrite Hout.
  - destruct argv as [|prog [|query [|arg' rest]]]; try discriminate Harg.
    injection Harg as ->.
    now rewrite main_on_with_query, max_results_arg_given, Hint.
  - now rewrite (main_on_query _ _ _ _ _ Hquery Hcap), Hsearch.
  - rewrite (main_on_query _ _ _ _ _ Hquery Hcap), Hsearch. cbn [bind].
    now rewrite Hdumps.
  - rewrite (main_on_query _ _ _ _ _ Hquery Hcap), Hsearch. cbn [bind].
    rewrite Hdumps. cbn [bind]. unfold print. now rewrite Hout.
Qed.

(** Nothing else happens: the usage exit, the end of the script, or an
    exception that nothing handles. *)
Lemma main_on_cases (out : stdout_behaviour) (ddgs : DDGS) (argv : list string) :
  ((length argv < 2)%nat /\ out no_query_text = None
   /\ main_on out ddgs argv = mkProcess no_query_line (Exit 1))
  \/ (exists line, returns_normally out ddgs argv line)
  \/ (exists e, unhandled out ddgs argv e).
Proof.
  destruct (Nat.ltb_spec (length argv) 2) as [Hlen | Hlen].
  - destruct (out no_query_text) as [e|] eqn:Hout.
    + right. right. exists e. now apply unhandled_usage.
    + left. split; [exact Hlen|]. split; [reflexivity|].
      rewrite main_on_missing by exact Hlen. unfold print. now rewrite Hout.
  - right.
    destruct argv as [|prog [|query rest]]; cbn [length] in Hlen; try lia.
    assert (Hquery : py_index (prog :: query :: rest) 1 = Ok query)
      by reflexivity.
    destruct (max_results_arg (prog :: query :: rest)) as [cap | e] eqn:Hcap.
    + destruct (search ddgs query cap) as [response | e] eqn:Hsearch.
      * destruct (json_dumps false response) as [line | e] eqn:Hdumps.
        { destruct (out line) as [e|] eqn:Hout.
          - right. exists e. now apply unhandled_print
              with (query := query) (cap := cap) (response := response)
                   (line := line).
          - left. exists line, query, cap, response. repeat split; assumption. }
        { right. exists e. now apply unhandled_dumps
            with (query := query) (cap := cap) (response := response). }
      * right. exists e.
        now apply unhandled_search with (query := query) (cap := cap).
    + right. exists e.
      destruct (max_results_arg_raises _ _ Hcap) as (_ & arg & Harg & Hint).
      now apply unhandled_int with (arg := arg).
Qed.

(** The run with a query and a cap, by what the capability does. *)
Lemma main_prints_search (ddgs : DDGS) (argv : list string)
    (query : string) (cap : Z) :
  py_index argv 1 = Ok query ->
  max_results_arg argv = Ok cap ->
  prints_search ddgs query cap (main ddgs argv).
Proof.
  intros Hquery Hcap. unfold main.
  rewrite (main_on_query _ _ _ _ _ Hquery Hcap). split.
  - intros ds Hd response.
    rewrite (search_of_delivery _ _ _ _ Hd). cbn [bind].
    assert (E : success_response query (map normalize ds) = response).
    { unfold success_response, response. now rewrite length_map. }
    rewrite E. split; intros r Hr; rewrite Hr; reflexivity.
  - intros e Hf. rewrite (search_of_fault _ _ _ _ Hf).
    split; intro He; rewrite He; [|reflexivity]. cbn [bind].
    destruct (dumps_failure_response query e) as (line & Hline & <-).
    now rewrite Hline.
Qed.

End MainFacts.

Module SearchSpec.
Import Script Capability Samples SearchFacts.

(** C1.  When the capability raises nothing and hands over [k] records
    (mappings, so that their fields can be read), [search] returns the
    response with [success = true], the query as given, [count = k] and
    the [k] entries of the records in the order they were handed over.
    This holds for every query and every [max_results], so for a
    non-empty query and a positive cap that [k] does not exceed. *)
Theorem search_success (ddgs : DDGS) (query : string) (n : Z) (ds : list dict) :
  delivers ddgs query n ds ->
  exists results : list pyval,
    search ddgs query n
    = Ok (PDict [("success", PBool true);
                 ("query", PStr query);
                 ("results", PList results);
                 ("count", PInt (Z.of_nat (length ds)))])
    /\ length results = length ds
    /\ results = map normalize ds.
Proof.
  intro H. exists (map normalize ds).
  rewrite (search_of_delivery _ _ _ _ H). unfold success_response.
  rewrite length_map. repeat split.
Qed.

Lemma search_success_witness :
  delivers answering "test" 20 three_records
  /\ exists results : list pyval,
      search answering "test" 20
      = Ok (PDict [("success", PBool true);
                   ("query", PStr "test");
                   ("results", PList results);
                   ("count", PInt 3)])
      /\ length results = 3%nat
      /\ results = map normalize three_records.
Proof.
  split.
  - repeat split.
  - apply (search_success answering "test" 20 three_records). repeat split.
Defined.

(** C2, as amended.  A fault raised inside [search] while the session is
    acquired, during the iteration, by a field access or while the
    session is released, comes back as the response with
    [success = false], the query as given, no results, whatever was
    iterated before, and [error = str(e)], when it is an instance of
    [Exception]; a fault of another kind goes on to the caller. *)
Theorem search_fault_reported (ddgs : DDGS) (query : string) (n : Z) (e : exn) :
  faults_with ddgs query n e ->
  (exn_is_Exception e = true ->
   search ddgs query n
   = Ok (PDict [("success", PBool false);
                ("error", PStr (exn_str e));
                ("query", PStr query);
                ("results", PList [])]))
  /\ (exn_is_Exception e = false -> search ddgs query n = Raise e).
Proof.
  intro H. rewrite (search_of_fault _ _ _ _ H).
  split; intro He; rewrite He; reflexivity.
Qed.

Lemma search_fault_reported_witness :
  faults_with failing_after_two "test" 20 ratelimit
  /\ search failing_after_two "test" 20
     = Ok (PDict [("success", PBool false);
                  ("error", PStr "202 Ratelimit");
                  ("query", PStr "test");
                  ("results", PList [])]).
Proof.
  assert (H : faults_with failing_after_two "test" 20 ratelimit).
  { apply fault_in_iteration with (ds := firstn 2 three_records); reflexivity. }
  split.
  - exact H.
  - apply (search_fault_reported failing_after_two "test" 20 ratelimit H).
    reflexivity.
Defined.

(** C2, as stated, fails twice: an exception raised without a message is
    reported with an empty [error], and an exception that is no instance
    of [Exception] escapes the call. *)
Lemma search_fault_unreported :
  (faults_with timing_out "test" 20 timeout_error
   /\ search timing_out "test" 20
      = Ok (PDict [("success", PBool false);
                   ("error", PStr EmptyString);
                   ("query", PStr "test");
                   ("results", PList [])])
   /\ ~ reported_with_text timing_out "test" 20)
  /\ (faults_with interrupted "test" 20 keyboard_interrupt
      /\ search interrupted "test" 20 = Raise keyboard_interrupt
      /\ ~ reported_with_text interrupted "test" 20).
Proof.
  split; repeat split.
  - apply fault_in_iteration with (ds := []); reflexivity.
  - intros (msg & Hmsg & H). vm_compute in H. inversion H. congruence.
  - apply fault_in_iteration
      with (ds := [full_record "Alpha" "https://a.example" "first"]);
      reflexivity.
  - intros (msg & _ & H). vm_compute in H. discriminate H.
Qed.

Lemma text_records_emit (ds : list dict) :
  text_records (emit (map PDict ds) Exhausted) = true ->
  Forall (fun d => text_record d = true) ds.
Proof.
  induction ds as [|d ds IH]; simpl; intro H; constructor.
  - now apply andb_prop in H.
  - apply IH. now apply andb_prop in H.
Qed.

Lemma field_text (d : dict) (key : string) :
  text_or_absent key d = true -> exists s, field d key = PStr s.
Proof.
  unfold text_or_absent, field.
  destruct (dict_lookup key d) as [[| b | z | s | l | d' | t]|]; intro H;
    try discriminate H; eauto.
Qed.

Lemma normalize_text (d : dict) :
  text_record d = true -> has_text_fields (normalize d).
Proof.
  unfold text_record. intro H.
  apply andb_prop in H as [H Hbody]. apply andb_prop in H as [Htitle Hhref].
  destruct (field_text _ _ Htitle) as [t Ht].
  destruct (field_text _ _ Hhref) as [u Hu].
  destruct (field_text _ _ Hbody) as [b Hb].
  exists t, u, b. unfold normalize. now rewrite Ht, Hu, Hb.
Qed.

Lemma results_of_response query results results' :
  dict_lookup "results" [("success", PBool true); ("query", PStr query);
                         ("results", PList results);
                         ("count", PInt (Z.of_nat (length results)))]
  = Some (PList results') ->
  results' = results.
Proof. simpl. intro H. now inversion H. Qed.

(** C3, as amended.  Every entry of [results] has the four fields
    [title], [url], [description] and [source], in this order and no
    other, and its [source] is the text [ddg-python].  The entries are
    those of the records handed over, in their order: [title], [url] and
    [description] are what the record holds under [title], [href] and
    [body], and the empty text where the record has no such field; after
    a fault there is no entry.  So the three are texts whenever the
    values the records hold under these keys are. *)
Theorem search_results_fields (ddgs : DDGS) (query : string) (n : Z)
    (response : dict) (results : list pyval) :
  search ddgs query n = Ok (PDict response) ->
  dict_lookup "results" response = Some (PList results) ->
  ((exists ds : list dict,
       delivers ddgs query n ds
       /\ results
          = map (fun d =>
                   PDict [("title", match dict_lookup "title" d with
                                    | Some v => v
                                    | None => PStr EmptyString
                                    end);
                          ("url", match dict_lookup "href" d with
                                  | Some v => v
                                  | None => PStr EmptyString
                                  end);
                          ("description", match dict_lookup "body" d with
                                          | Some v => v
                                          | None => PStr EmptyString
                                          end);
                          ("source", PStr "ddg-python")]) ds)
   \/ ((exists e : exn, faults_with ddgs query n e) /\ results = []))
  /\ Forall has_four_fields results
  /\ (text_records (ddgs_text ddgs query n) = true ->
      Forall has_text_fields results).
Proof.
  intros Hsearch Hresults.
  destruct (search_returns _ _ _ _ Hsearch)
    as [(ds & Hd & Hresp) | (e & Hf & Hresp)];
    inversion Hresp; subst response; clear Hresp.
  - apply results_of_response in Hresults. subst results.
    split; [|split].
    + left. exists ds. split; [exact Hd | reflexivity].
    + apply Forall_forall. intros entry Hin.
      apply in_map_iff in Hin as (d & <- & _).
      now exists (field d "title"), (field d "href"), (field d "body").
    + destruct Hd as (_ & Htext & _). rewrite Htext. intro H.
      apply text_records_emit in H.
      apply Forall_forall. intros entry Hin.
      apply in_map_iff in Hin as (d & <- & Hd).
      apply normalize_text. revert d Hd. now apply Forall_forall.
  - simpl in Hresults. inversion Hresults.
    split; [|split; intros; constructor].
    right. split; [now exists e | reflexivity].
Qed.

Lemma search_results_fields_witness :
  search title_only "test" 20
  = Ok (PDict [("success", PBool true); ("query", PStr "test");
               ("results", PList [normalize [("title", PStr "Alpha")]]);
               ("count", PInt 1)])
  /\ text_records (ddgs_text title_only "test" 20) = true
  /\ Forall has_four_fields [normalize [("title", PStr "Alpha")]]
  /\ Forall has_text_fields [normalize [("title", PStr "Alpha")]].
Proof.
  split; [reflexivity|]. split; [reflexivity|].
  destruct (search_results_fields title_only "test" 20
              [("success", PBool true); ("query", PStr "test");
               ("results", PList [normalize [("title", PStr "Alpha")]]);
               ("count", PInt 1)]
              [normalize [("title", PStr "Alpha")]]
              eq_refl eq_refl) as (_ & Hfour & Htext).
  split; [exact Hfour | apply Htext; reflexivity].
Defined.

(** C3, as stated, fails: a record whose [title] is [None] gives an
    entry whose [title] is [None], not a text. *)
Lemma search_result_null_title :
  search null_title "test" 20
  = Ok (PDict [("success", PBool true);
               ("query", PStr "test");
               ("results", PList [PDict [("title", PNone);
                                         ("url", PStr "https://a.example");
                                         ("description", PStr "first");
                                         ("source", PStr "ddg-python")]]);
               ("count", PInt 1)])
  /\ ~ has_text_fields (PDict [("title", PNone);
                               ("url", PStr "https://a.example");
                               ("description", PStr "first");
                               ("source", PStr "ddg-python")]).
Proof.
  split; [reflexivity|].
  intros (t & u & d & H). discriminate H.
Qed.

(** C4.  A response [search] returns has [count] or [error] and not
    both: [count] exactly when [success] is true, [error] exactly when
    [success] is false. *)
Theorem response_count_xor_error (ddgs : DDGS) (query : string) (n : Z)
    (response : pyval) :
  search ddgs query n = Ok response ->
  exists d : dict,
    response = PDict d
    /\ has_key "count" d = negb (has_key "error" d)
    /\ (has_key "count" d = true <-> dict_lookup "success" d = Some (PBool true))
    /\ (has_key "error" d = true <-> dict_lookup "success" d = Some (PBool false)).
Proof.
  intro H.
  destruct (search_returns _ _ _ _ H) as [(ds & _ & ->) | (e & _ & ->)];
    (eexists; split; [reflexivity|]); cbv [has_key dict_lookup negb];
    simpl; repeat split; intro; congruence.
Qed.

Lemma response_count_xor_error_witness :
  search failing_at_once "test" 20 = Ok (failure_response "test" ratelimit)
  /\ exists d : dict,
      failure_response "test" ratelimit = PDict d
      /\ has_key "count" d = negb (has_key "error" d)
      /\ (has_key "count" d = true <-> dict_lookup "success" d = Some (PBool true))
      /\ (has_key "error" d = true <-> dict_lookup "success" d = Some (PBool false)).
Proof.
  split; [reflexivity|].
  apply (response_count_xor_error failing_at_once "test" 20). reflexivity.
Defined.

(** C5.  Whatever the outcome, the [query] of a response [search]
    returns is the text it was given. *)
Theorem response_echoes_query (ddgs : DDGS) (query : string) (n : Z)
    (response : pyval) :
  search ddgs query n = Ok response ->
  exists d : dict,
    response = PDict d /\ dict_lookup "query" d = Some (PStr query).
Proof.
  intro H.
  destruct (search_returns _ _ _ _ H) as [(ds & _ & ->) | (e & _ & ->)];
    eexists; split; reflexivity.
Qed.

Lemma response_echoes_query_witness :
  search unreachable "rocq prover" 5
  = Ok (failure_response "rocq prover"
          (mkExn "ConnectError" true "connection refused"))
  /\ exists d : dict,
      failure_response "rocq prover"
        (mkExn "ConnectError" true "connection refused") = PDict d
      /\ dict_lookup "query" d = Some (PStr "rocq prover").
Proof.
  split; [reflexivity|].
  apply (response_echoes_query unreachable "rocq prover" 5).
  reflexivity.
Defined.

(** C10.  The outcome of [search] is decided by the query, the cap and
    what the capability does for them: two capabilities that hand over
    the same records, or from which the same fault reaches the handler,
    give the same outcome, whatever they do for other requests and
    whatever was iterated before the fault. *)
Theorem search_deterministic (ddgs1 ddgs2 : DDGS) (query : string) (n : Z) :
  same_behaviour ddgs1 ddgs2 query n ->
  search ddgs1 query n = search ddgs2 query n.
Proof.
  intros [(ds & H1 & H2) | (e & H1 & H2)].
  - now rewrite (search_of_delivery _ _ _ _ H1), (search_of_delivery _ _ _ _ H2).
  - now rewrite (search_of_fault _ _ _ _ H1), (search_of_fault _ _ _ _ H2).
Qed.

Lemma search_deterministic_witness :
  same_behaviour answering answering_test_20 "test" 20
  /\ search answering "test" 20 = search answering_test_20 "test" 20.
Proof.
  assert (H : same_behaviour answering answering_test_20 "test" 20).
  { left. exists three_records. repeat split. }
  split; [exact H|].
  exact (search_deterministic answering answering_test_20 "test" 20 H).
Defined.

End SearchSpec.

Module MainSpec.
Import Text Builtins Script Capability Samples Output SearchFacts MainFacts.

(** C6.  Run with no argument, the script prints the one line
    [{"error": "No query provided"}] and ends with status 1, whatever
    the search library would do: it is not asked. *)
Theorem main_no_query (ddgs : DDGS) (prog : string) :
  main ddgs [prog] = mkProcess no_query_line (Exit 1)
  /\ exit_status (status (main ddgs [prog])) = Some 1.
Proof. split; reflexivity. Qed.

(** C7, as amended.  A run that reaches the end of the script, with a
    response that reports success or failure, has printed it and ends
    with status 0.  Status 1 ends the run without a query, and also every
    run that an exception with that status ends where nothing handles
    it: raised by [int] on the second argument, by [json.dumps] or by
    [print] on the response, all instances of [Exception], or let
    through by [search]; and no other run. *)
Theorem main_exit_status (out : stdout_behaviour) (ddgs : DDGS)
    (argv : list string) :
  (forall line : string,
      returns_normally out ddgs argv line ->
      main_on out ddgs argv = mkProcess (line ++ chr newline) (Exit 0))
  /\ (exit_status (status (main_on out ddgs argv)) = Some 1
      <-> ((length argv < 2)%nat /\ out no_query_text = None)
          \/ exists e : exn,
              unhandled out ddgs argv e
              /\ exit_status (Uncaught e) = Some 1).
Proof.
  split; [intros line H; exact (main_on_returns _ _ _ _ H)|].
  split.
  - intro Hone.
    destruct (main_on_cases out ddgs argv)
      as [(Hlen & Hout & _) | [(line & Hline) | (e & He)]].
    + left. split; assumption.
    + rewrite (main_on_returns _ _ _ _ Hline) in Hone. discriminate Hone.
    + right. exists e. split; [exact He|].
      now rewrite (main_on_unhandled _ _ _ _ He) in Hone.
  - intros [[Hlen Hout] | (e & He & Hone)].
    + rewrite main_on_missing by exact Hlen. unfold print. now rewrite Hout.
    + now rewrite (main_on_unhandled _ _ _ _ He).
Qed.

Lemma main_exit_status_witness :
  (returns_normally utf8_stdout failing_at_once ["ddg_search.py"; "test"]
     (failure_text "202 Ratelimit" "test")
   /\ main_on utf8_stdout failing_at_once ["ddg_search.py"; "test"]
      = mkProcess (failure_text "202 Ratelimit" "test" ++ chr newline) (Exit 0))
  /\ (unhandled utf8_stdout bytes_title ["ddg_search.py"; "test"]
        (TypeError "Object of type bytes is not JSON serializable")
      /\ exit_status
           (status (main_on utf8_stdout bytes_title ["ddg_search.py"; "test"]))
         = Some 1).
Proof.
  assert (Hreturns :
            returns_normally utf8_stdout failing_at_once
              ["ddg_search.py"; "test"] (failure_text "202 Ratelimit" "test")).
  { exists "test", 20, (failure_response "test" ratelimit).
    repeat split. }
  assert (Hraised :
            unhandled utf8_stdout bytes_title ["ddg_search.py"; "test"]
              (TypeError "Object of type bytes is not JSON serializable")).
  { apply unhandled_dumps
      with (query := "test") (cap := 20)
           (response := success_response "test"
                          [normalize [("title", POther "bytes")]]);
      reflexivity. }
  split; split; try assumption.
  - exact (proj1 (main_exit_status utf8_stdout failing_at_once
                    ["ddg_search.py"; "test"]) _ Hreturns).
  - apply (proj2 (main_exit_status utf8_stdout bytes_title
                    ["ddg_search.py"; "test"])).
    right. eexists. split; [exact Hraised | reflexivity].
Defined.

(** C7, as stated, fails: with a query and a second argument that is no
    integer, the run ends with status 1. *)
Lemma main_exit_1_with_query :
  (2 <= length ["ddg_search.py"; "test"; "abc"])%nat
  /\ main answering ["ddg_search.py"; "test"; "abc"]
     = mkProcess EmptyString
         (Uncaught
            (ValueError "invalid literal for int() with base 10: 'abc'"))
  /\ exit_status (status (main answering ["ddg_search.py"; "test"; "abc"]))
     = Some 1.
Proof. repeat split. simpl. lia. Qed.

(** C8.  With the query as its only argument the script searches with
    the cap 20: what it prints and how it ends is what the capability
    does when asked for the query with the cap 20.  With a second
    argument that [int] accepts, it is what the capability does when
    asked with the integer this argument denotes. *)
Theorem main_max_results (ddgs : DDGS) (prog query : string) :
  prints_search ddgs query 20 (main ddgs [prog; query])
  /\ forall (arg : string) (rest : list string) (cap : Z),
      py_int arg = Ok cap ->
      prints_search ddgs query cap (main ddgs (prog :: query :: arg :: rest)).
Proof.
  split.
  - apply main_prints_search; reflexivity.
  - intros arg rest cap H. apply main_prints_search; [reflexivity|].
    now rewrite max_results_arg_given.
Qed.

Lemma main_max_results_witness :
  (delivers telling_the_cap "test" 20 [[("title", PStr "20")]]
   /\ main telling_the_cap ["ddg_search.py"; "test"]
      = mkProcess (cap_told_text "test" "20" ++ chr newline) (Exit 0))
  /\ (py_int "7" = Ok 7
      /\ delivers telling_the_cap "test" 7 [[("title", PStr "7")]]
      /\ main telling_the_cap ["ddg_search.py"; "test"; "7"]
         = mkProcess (cap_told_text "test" "7" ++ chr newline) (Exit 0)).
Proof.
  destruct (main_max_results telling_the_cap "ddg_search.py" "test")
    as [Hdefault Hgiven].
  assert (H20 : delivers telling_the_cap "test" 20 [[("title", PStr "20")]])
    by (repeat split).
  assert (H7 : delivers telling_the_cap "test" 7 [[("title", PStr "7")]])
    by (repeat split).
  split; [split; [exact H20|] | split; [reflexivity | split; [exact H7|]]].
  - destruct Hdefault as [Hdelivered _].
    destruct (Hdelivered _ H20) as [Hline _].
    apply Hline. reflexivity.
  - destruct (Hgiven "7" [] 7 eq_refl) as [Hdelivered _].
    destruct (Hdelivered _ H7) as [Hline _].
    apply Hline. reflexivity.
Defined.

(** C9.  The conversion of the second argument is partial: there are
    arguments [int] rejects, and with one of them the exception leaves
    the script before [search] is called.  Nothing is printed, whatever
    the search library would do, although the exception is an instance
    of [Exception], which the handler inside [search] would catch. *)
Theorem main_bad_max_results :
  (exists (arg : string) (e : exn), py_int arg = Raise e)
  /\ forall (ddgs : DDGS) (prog query arg : string) (e : exn),
      py_int arg = Raise e ->
      main ddgs [prog; query; arg] = mkProcess EmptyString (Uncaught e)
      /\ exn_is_Exception e = true.
Proof.
  split.
  - exists "abc". eexists. reflexivity.
  - intros ddgs prog query arg e H. split.
    + now rewrite main_with_query, max_results_arg_given, H.
    + now apply py_int_raises_Exception with (arg := arg).
Qed.

Lemma main_bad_max_results_witness :
  py_int "abc"
  = Raise (ValueError "invalid literal for int() with base 10: 'abc'")
  /\ main failing_at_once ["ddg_search.py"; "test"; "abc"]
     = mkProcess EmptyString
         (Uncaught (ValueError "invalid literal for int() with base 10: 'abc'"))
  /\ exn_is_Exception
       (ValueError "invalid literal for int() with base 10: 'abc'") = true.
Proof.
  split; [reflexivity|].
  destruct main_bad_max_results as [_ H].
  apply (H failing_at_once "ddg_search.py" "test" "abc"). reflexivity.
Defined.

End MainSpec.

(** * Further properties of the response *)

Module ResponseSpec.
Import Text Builtins Script Capability Samples Output SearchFacts.

(** X1.  The entry made for a record is decided by what the record holds
    under [title], [href] and [body]: no other field of the record, and
    not the order of its fields, shows in the entry. *)
Theorem make_result_reads_three_fields (d d' : dict) :
  dict_lookup "title" d = dict_lookup "title" d' ->
  dict_lookup "href" d = dict_lookup "href" d' ->
  dict_lookup "body" d = dict_lookup "body" d' ->
  make_result (PDict d) = make_result (PDict d').
Proof.
  intros Htitle Hhref Hbody. unfold make_result, py_get.
  now rewrite Htitle, Hhref, Hbody.
Qed.

Lemma make_result_reads_three_fields_witness :
  make_result (PDict record_with_extras)
  = make_result (PDict (full_record "Alpha" "https://a.example" "first")).
Proof.
  apply (make_result_reads_three_fields record_with_extras
           (full_record "Alpha" "https://a.example" "first"));
    reflexivity.
Defined.

(** X2.  A response always has a list under [results]: on success
    [count] is the length of that list, on failure the list is empty. *)
Theorem response_results_counted (ddgs : DDGS) (query : string) (n : Z)
    (response : pyval) :
  search ddgs query n = Ok response ->
  exists (d : dict) (results : list pyval),
    response = PDict d
    /\ dict_lookup "results" d = Some (PList results)
    /\ (dict_lookup "success" d = Some (PBool true)
        /\ dict_lookup "count" d = Some (PInt (Z.of_nat (length results)))
        \/ dict_lookup "success" d = Some (PBool false) /\ results = []).
Proof.
  intro H.
  destruct (search_returns _ _ _ _ H) as [(ds & _ & ->) | (e & _ & ->)];
    do 2 eexists; (split; [reflexivity|]); (split; [reflexivity|]);
    [left | right]; split; reflexivity.
Qed.

Lemma response_results_counted_witness :
  search answering "test" 20
  = Ok (success_response "test" (map normalize three_records))
  /\ exists (d : dict) (results : list pyval),
      success_response "test" (map normalize three_records) = PDict d
      /\ dict_lookup "results" d = Some (PList results)
      /\ (dict_lookup "success" d = Some (PBool true)
          /\ dict_lookup "count" d = Some (PInt (Z.of_nat (length results)))
          \/ dict_lookup "success" d = Some (PBool false) /\ results = []).
Proof.
  split; [reflexivity|].
  apply (response_results_counted answering "test" 20). reflexivity.
Defined.

(** X3.  An exception that leaves [search] is never an instance of
    [Exception]: it is a fault raised inside that the handler does not
    take. *)
Theorem search_raises_no_Exception (ddgs : DDGS) (query : string) (n : Z)
    (e : exn) :
  search ddgs query n = Raise e ->
  exn_is_Exception e = false /\ faults_with ddgs query n e.
Proof.
  intro H. split; [exact (search_escapes _ _ _ _ H)|].
  destruct (delivers_or_faults ddgs query n) as [[ds Hd] | [e' Hf]].
  - rewrite (search_of_delivery _ _ _ _ Hd) in H. discriminate H.
  - rewrite (search_of_fault _ _ _ _ Hf) in H.
    destruct (exn_is_Exception e'); [discriminate H|].
    inversion H. now subst e'.
Qed.

Lemma search_raises_no_Exception_witness :
  search interrupted "test" 20 = Raise keyboard_interrupt
  /\ exn_is_Exception keyboard_interrupt = false
  /\ faults_with interrupted "test" 20 keyboard_interrupt.
Proof.
  split; [reflexivity|].
  apply (search_raises_no_Exception interrupted "test" 20 keyboard_interrupt).
  reflexivity.
Defined.

End ResponseSpec.

(** * Further properties of what is printed *)

Module PrintedSpec.
Import Text Builtins Script Capability Samples Output.
Import SearchFacts MainFacts OutputFacts.

(** X4.  A run prints one line or nothing: when the script ends by
    itself, standard output is one text without a line break followed by
    the line end, whatever the query, the records and the fault contain;
    when an exception ends it, standard output is empty. *)
Theorem main_prints_one_line (ddgs : DDGS) (argv : list string) :
  match status (main ddgs argv) with
  | Exit _ =>
    exists line : string,
      stdout (main ddgs argv) = (line ++ chr newline)%string /\ one_line line
  | Uncaught _ => stdout (main ddgs argv) = EmptyString
  end.
Proof.
  unfold main.
  destruct (main_on_cases utf8_stdout ddgs argv)
    as [(_ & _ & Hrun) | [(line & Hline) | (e & He)]].
  - rewrite Hrun. cbn [status stdout]. exists no_query_text.
    split; reflexivity.
  - rewrite (main_on_returns _ _ _ _ Hline). cbn [status stdout].
    exists line. split; [reflexivity|].
    destruct Hline as (query & cap & response & _ & _ & _ & Hdumps & _).
    exact (one_line_json_dumps _ _ _ Hdumps).
  - rewrite (main_on_unhandled _ _ _ _ He). reflexivity.
Qed.

(** X5.  A fault that is an instance of [Exception] ends the run with
    status 0 and the one line
    [{"success": false, "error": ..., "query": ..., "results": []}],
    the members in this order. *)
Theorem main_prints_failure (ddgs : DDGS) (argv : list string)
    (query : string) (cap : Z) (e : exn) :
  py_index argv 1 = Ok query ->
  max_results_arg argv = Ok cap ->
  faults_with ddgs query cap e ->
  exn_is_Exception e = true ->
  main ddgs argv = mkProcess (failure_line (exn_str e) query) (Exit 0).
Proof.
  intros Hquery Hcap Hfault He.
  destruct (main_prints_search ddgs argv query cap Hquery Hcap) as [_ Hfaults].
  exact (proj1 (Hfaults e Hfault) He).
Qed.

Lemma main_prints_failure_witness :
  py_index ["ddg_search.py"; "test"] 1 = Ok "test"
  /\ max_results_arg ["ddg_search.py"; "test"] = Ok 20
  /\ faults_with failing_after_two "test" 20 ratelimit
  /\ exn_is_Exception ratelimit = true
  /\ main failing_after_two ["ddg_search.py"; "test"]
     = mkProcess (failure_line "202 Ratelimit" "test") (Exit 0).
Proof.
  assert (H : faults_with failing_after_two "test" 20 ratelimit).
  { apply fault_in_iteration with (ds := firstn 2 three_records); reflexivity. }
  split; [reflexivity|]. split; [reflexivity|]. split; [exact H|].
  split; [reflexivity|].
  exact (main_prints_failure failing_after_two ["ddg_search.py"; "test"]
           "test" 20 ratelimit eq_refl eq_refl H eq_refl).
Defined.

(** X6.  A search that finds nothing is a success: the run ends with
    status 0 and the one line
    [{"success": true, "query": ..., "results": [], "count": 0}]. *)
Theorem main_prints_nothing_found (ddgs : DDGS) (argv : list string)
    (query : string) (cap : Z) :
  py_index argv 1 = Ok query ->
  max_results_arg argv = Ok cap ->
  delivers ddgs query cap [] ->
  main ddgs argv = mkProcess (nothing_found_line query) (Exit 0).
Proof.
  intros Hquery Hcap Hnothing.
  destruct (main_prints_search ddgs argv query cap Hquery Hcap)
    as [Hdelivered _].
  destruct (dumps_nothing_found query) as (line & Hline & <-).
  exact (proj1 (Hdelivered [] Hnothing) line Hline).
Qed.

Lemma main_prints_nothing_found_witness :
  py_index ["ddg_search.py"; "test"; "5"] 1 = Ok "test"
  /\ max_results_arg ["ddg_search.py"; "test"; "5"] = Ok 5
  /\ delivers finding_nothing "test" 5 []
  /\ main finding_nothing ["ddg_search.py"; "test"; "5"]
     = mkProcess (nothing_found_line "test") (Exit 0).
Proof.
  assert (H : delivers finding_nothing "test" 5 []) by (repeat split).
  split; [reflexivity|]. split; [reflexivity|]. split; [exact H|].
  exact (main_prints_nothing_found finding_nothing
           ["ddg_search.py"; "test"; "5"] "test" 5 eq_refl eq_refl H).
Defined.

(** X7.  With [ensure_ascii=False] a text without control character,
    quote and backslash is written between quotes as it is: the bytes of
    a text outside ASCII reach the output unchanged. *)
Theorem json_dumps_plain_text (s : string) :
  plain_text s = true -> json_dumps false (PStr s) = Ok (quoted s).
Proof.
  unfold plain_text. intro H. cbn [json_dumps]. unfold json_string.
  do 2 f_equal.
  rewrite <- (string_of_list_ascii_of_string s) at 2.
  rewrite <- concat_chr. f_equal.
  apply map_ext_in. intros c Hc. apply escape_byte_plain.
  revert c Hc. now apply forallb_forall.
Qed.

Lemma json_dumps_plain_text_witness :
  plain_text cyrillic_query = true
  /\ json_dumps false (PStr cyrillic_query) = Ok (quoted cyrillic_query).
Proof.
  split; [reflexivity|].
  apply (json_dumps_plain_text cyrillic_query). reflexivity.
Defined.

(** X10.  Whatever a text contains, what [json.dumps] writes for it is
    the text's escapes between two quotes, and inside them every quote
    and every backslash is escaped: no quote or backslash of a query, of a
    record or of an error message ends the string early or reaches its
    closing quote. *)
Theorem json_string_well_escaped (ensure_ascii : bool) (s : string) :
  exists body : string,
    json_string ensure_ascii s = quoted body
    /\ well_escaped (list_ascii_of_string body) = true.
Proof.
  unfold json_string. eexists. split; [reflexivity|].
  destruct ensure_ascii; apply well_escaped_concat_map.
  - apply well_escaped_code_point.
  - intros c rest. apply well_escaped_piece, piece_escape_byte.
Qed.

End PrintedSpec.

(** * Further properties of the arguments *)

Module ArgumentSpec.
Import Text Builtins Script Capability Samples Output MainFacts NumeralFacts.

(** X8.  A second argument that is the decimal numeral of an integer, of
    any sign, makes that integer the cap the capability is asked with, as
    long as the numeral has no more digits than [int] converts: zero and
    the negative integers are passed on as they are. *)
Theorem main_cap_of_numeral (ddgs : DDGS) (prog query : string) (n : Z)
    (rest : list string) :
  (numeral_digits n <= int_max_str_digits)%nat ->
  py_int (str_of_int n) = Ok n
  /\ prints_search ddgs query n
       (main ddgs (prog :: query :: str_of_int n :: rest)).
Proof.
  intro H. split; [exact (py_int_str_of_int n H)|].
  apply main_prints_search; [reflexivity|].
  rewrite max_results_arg_given. exact (py_int_str_of_int n H).
Qed.

Lemma main_cap_of_numeral_witness :
  (numeral_digits (-3) <= int_max_str_digits)%nat
  /\ py_int "-3" = Ok (-3)
  /\ delivers telling_the_cap "test" (-3) [[("title", PStr "-3")]]
  /\ main telling_the_cap ["ddg_search.py"; "test"; "-3"]
     = mkProcess (cap_told_text "test" "-3" ++ chr newline) (Exit 0).
Proof.
  assert (Hdigits : (numeral_digits (-3) <= int_max_str_digits)%nat)
    by (apply Nat.leb_le; reflexivity).
  assert (Hasked : delivers telling_the_cap "test" (-3) [[("title", PStr "-3")]])
    by (repeat split).
  destruct (main_cap_of_numeral telling_the_cap "ddg_search.py" "test" (-3) []
              Hdigits) as [Hint [Hdelivered _]].
  split; [exact Hdigits|]. split; [exact Hint|]. split; [exact Hasked|].
  destruct (Hdelivered _ Hasked) as [Hline _].
  apply Hline. reflexivity.
Defined.

(** X9.  Of [sys.argv] only the first two arguments count: the path of
    the script and the arguments after the second change nothing. *)
Theorem main_reads_two_arguments (ddgs : DDGS) (prog prog' query arg : string)
    (rest rest' : list string) :
  main ddgs [prog; query] = main ddgs [prog'; query]
  /\ main ddgs (prog :: query :: arg :: rest)
     = main ddgs (prog' :: query :: arg :: rest').
Proof.
  split; [reflexivity|].
  now rewrite !main_with_query, !max_results_arg_given.
Qed.

End ArgumentSpec.

(** * The scenarios of the specification *)

Module Scenarios.
Import Text Builtins Script Capability Samples Output.

(** Three records with all their fields: success, count 3, the entries
    in the order given, each with the source tag. *)
Example three_records_found :
  search answering "test" 20
  = Ok (PDict
          [("success", PBool true);
           ("query", PStr "test");
           ("results",
            PList
              [PDict [("title", PStr "Alpha"); ("url", PStr "https://a.example");
                      ("description", PStr "first"); ("source", PStr "ddg-python")];
               PDict [("title", PStr "Beta"); ("url", PStr "https://b.example");
                      ("description", PStr "second"); ("source", PStr "ddg-python")];
               PDict [("title", PStr "Gamma"); ("url", PStr "https://c.example");
                      ("description", PStr "third"); ("source", PStr "ddg-python")]]);
           ("count", PInt 3)]).
Proof. reflexivity. Qed.

(** A fault raised at once: the failure object on one line, status 0. *)
Example fault_at_once_printed :
  main failing_at_once ["ddg_search.py"; "test"]
  = mkProcess
      ("{" ++ quoted "success" ++ ": false, "
       ++ quoted "error" ++ ": " ++ quoted "202 Ratelimit" ++ ", "
       ++ quoted "query" ++ ": " ++ quoted "test" ++ ", "
       ++ quoted "results" ++ ": []}" ++ chr newline)%string
      (Exit 0).
Proof. reflexivity. Qed.

(** A record without link and snippet gets the empty text for both. *)
Example missing_fields_default :
  search title_only "test" 20
  = Ok (success_response "test"
          [PDict [("title", PStr "Alpha"); ("url", PStr EmptyString);
                  ("description", PStr EmptyString);
                  ("source", PStr "ddg-python")]]).
Proof. reflexivity. Qed.

(** The cap the library is asked with: 20 without a second argument,
    the second argument otherwise, with blanks around it, an underscore
    between its digits or the digits of another script. *)
Example default_cap_asked :
  main telling_the_cap ["ddg_search.py"; "test"]
  = mkProcess (cap_told_text "test" "20" ++ chr newline) (Exit 0).
Proof. reflexivity. Qed.

Example given_cap_asked :
  main telling_the_cap ["ddg_search.py"; "test"; " 1_000 "]
  = mkProcess (cap_told_text "test" "1000" ++ chr newline) (Exit 0).
Proof. reflexivity. Qed.

Example arabic_indic_cap_asked :
  main telling_the_cap
    ["ddg_search.py"; "test";
     string_of_list_ascii (map ascii_of_nat [217; 163]%nat)]
  = mkProcess (cap_told_text "test" "3" ++ chr newline) (Exit 0).
Proof. reflexivity. Qed.

(** A numeral of 4301 digits is more than [int] converts. *)
Example long_numeral_rejected :
  main answering
    ["ddg_search.py"; "test"; string_of_list_ascii (repeat "1"%char 4301)]
  = mkProcess EmptyString
      (Uncaught
         (ValueError
            "Exceeds the limit (4300 digits) for integer string conversion: value has 4301 digits; use sys.set_int_max_str_digits() to increase the limit")).
Proof. vm_compute. reflexivity. Qed.

(** A title that [json.dumps] has no encoding for: the search returns,
    line 47 raises, nothing is printed and the status is 1. *)
Example bytes_title_unprintable :
  search bytes_title "test" 20
  = Ok (success_response "test" [PDict [("title", POther "bytes");
                                        ("url", PStr EmptyString);
                                        ("description", PStr EmptyString);
                                        ("source", PStr "ddg-python")]])
  /\ main bytes_title ["ddg_search.py"; "test"]
     = mkProcess EmptyString
         (Uncaught (TypeError "Object of type bytes is not JSON serializable"))
  /\ exit_status (status (main bytes_title ["ddg_search.py"; "test"])) = Some 1.
Proof. repeat split. Qed.

(** [SystemExit(1)] raised by the library passes the handler of [search]
    and ends the run with status 1; an interrupt ends it with no status. *)
Example system_exit_passes :
  main exiting ["ddg_search.py"; "test"]
  = mkProcess EmptyString (Uncaught system_exit_1)
  /\ exit_status (status (main exiting ["ddg_search.py"; "test"])) = Some 1
  /\ exit_status (status (main interrupted ["ddg_search.py"; "test"])) = None.
Proof. repeat split. Qed.

(** On a standard output in ASCII the response to a Cyrillic query cannot
    be printed: the run ends with status 1 although the search
    returned. *)
Example cyrillic_on_ascii_stdout :
  main_on ascii_stdout finding_nothing ["ddg_search.py"; cyrillic_query]
  = mkProcess EmptyString
      (Uncaught
         (mkExn "UnicodeEncodeError" true
            "'ascii' codec can't encode characters: ordinal not in range(128)"))
  /\ main finding_nothing ["ddg_search.py"; cyrillic_query]
     = mkProcess (nothing_found_line cyrillic_query) (Exit 0).
Proof. split; vm_compute; reflexivity. Qed.

(** An object that is no mapping among the records: the field access
    raises, and what was iterated before is dropped. *)
Example unreadable_record_reported :
  search (mkDDGS None
            (fun _ _ => emit (map PDict three_records) (Item PNone Exhausted))
            None) "test" 20
  = Ok (PDict [("success", PBool false);
               ("error", PStr "'NoneType' object has no attribute 'get'");
               ("query", PStr "test");
               ("results", PList [])]).
Proof. reflexivity. Qed.

End Scenarios.
